(** * Inter-AS BGP exercise: the speakers, the static routes they install
      and the scheduled scenario of [main]

    Shallow embedding of the BGP part of the inter-AS simulation program
    ([BgpRoute], [BgpSpeaker] and the events [main] schedules), followed by
    the properties of the specification that concern it.

    What the program leaves to the ns-3 library is kept as small as the
    program's use of it:
    - an [Ipv4Address] / [Ipv4Mask] is its 32-bit value;
    - the static routing table of a node is the list of entries (with their
      metric) that [AddNetworkRouteTo] has been asked to add;
    - [NS_LOG_UNCOND] appends one line to a log;
    - [Simulator::Schedule] / [Simulator::Run] are a time-ordered queue of
      the closures that [main] schedules.
    Topology, addressing, mobility, UDP traffic, pcap and animation output
    of [main] are not part of the model. *)

From Stdlib Require Import Sorted.
From stdpp Require Import base option list gmap strings pretty.

Open Scope string_scope.
Open Scope N_scope.

(** ** ns-3 values used by the program *)

(** 32-bit address, host byte order, as [Ipv4Address::m_address]. *)
Abbreviation Ipv4Address := N (only parsing).
Abbreviation Ipv4Mask := N (only parsing).

(** [Ipv4Address("a.b.c.d")] and [Ipv4Mask("a.b.c.d")]. *)
Definition ipv4 (a b c d : N) : N :=
  N.lor (N.shiftl a 24) (N.lor (N.shiftl b 16) (N.lor (N.shiftl c 8) d)).

(** [operator<<] on an [Ipv4Address]: dotted decimal. *)
Definition print_Ipv4Address (a : Ipv4Address) : string :=
  pretty (N.land (N.shiftr a 24) 255) +:+ "." +:+
  pretty (N.land (N.shiftr a 16) 255) +:+ "." +:+
  pretty (N.land (N.shiftr a 8) 255) +:+ "." +:+
  pretty (N.land a 255).

(** [Ipv4Mask::GetPrefixLength]: shifts the 32-bit mask left until it is
    zero and counts the shifts; a 32-bit word is zero after 32 shifts. *)
Fixpoint GetPrefixLength_loop (fuel : nat) (mask tmp : N) : N :=
  match fuel with
  | O => tmp
  | S fuel' =>
      if N.eqb mask 0 then tmp
      else GetPrefixLength_loop fuel' (N.land (N.shiftl mask 1) 4294967295) (tmp + 1)
  end.

Definition GetPrefixLength (mask : Ipv4Mask) : N :=
  GetPrefixLength_loop 32 mask 0.

(** [Ipv4RoutingTableEntry] as [CreateNetworkRouteTo] builds it. *)
Record Ipv4RoutingTableEntry := mkEntry {
  rt_dest : Ipv4Address;
  rt_mask : Ipv4Mask;
  rt_gateway : Ipv4Address;
  rt_interface : N
}.

#[global] Instance Ipv4RoutingTableEntry_eq_dec : EqDecision Ipv4RoutingTableEntry.
Proof. solve_decision. Defined.

(** The network routes of one [Ipv4StaticRouting]: entry and metric. *)
Abbreviation RoutingTable := (list (Ipv4RoutingTableEntry * N)) (only parsing).

(** ** BGP data *)

Record BgpRoute := mkRoute {
  prefix : Ipv4Address;
  mask : Ipv4Mask;
  asPath : list N
}.

(** [Ptr<Node>] and [Ptr<Ipv4>]: [None] is the null pointer, [Some n] the
    node with id [n], respectively the [Ipv4] object aggregated to node [n]. *)
Abbreviation Ptr := option (only parsing).

Record BgpSpeaker := mkSpeaker {
  m_as : N;
  m_node : Ptr nat;
  m_ipv4 : Ptr nat;
  m_nextHop : Ipv4Address;
  m_neighbors : list N
}.

(** ** The simulator state *)

(** The closures that end up in the event queue: the four lambdas of
    [main], named by the time they are scheduled at, and the print event
    that [PrintRoutingTableAllAt] schedules. *)
Inductive Action :=
  | Lambda_t2
  | Lambda_t3
  | Lambda_leak
  | Lambda_dump
  | PrintRoutingTableAll.

#[global] Instance Action_eq_dec : EqDecision Action.
Proof. solve_decision. Defined.

Record World := mkWorld {
  w_static : gmap nat (list (Ipv4RoutingTableEntry * N));
  w_log : list string;
  w_events : list (N * Action);
  w_now : N
}.

Definition set_static (n : nat) (t : RoutingTable) (w : World) : World :=
  {| w_static := <[n := t]> (w_static w); w_log := w_log w;
     w_events := w_events w; w_now := w_now w |}.

Definition set_events (q : list (N * Action)) (w : World) : World :=
  {| w_static := w_static w; w_log := w_log w;
     w_events := q; w_now := w_now w |}.

Definition set_now (t : N) (w : World) : World :=
  {| w_static := w_static w; w_log := w_log w;
     w_events := w_events w; w_now := t |}.

(** [NS_LOG_UNCOND(msg)]: one more line of output. *)
Definition NS_LOG_UNCOND (msg : string) (w : World) : World :=
  {| w_static := w_static w; w_log := w_log w ++ [msg];
     w_events := w_events w; w_now := w_now w |}.

(** [n->GetObject<Ipv4>()]: the node's [Ipv4] object when the internet
    stack is installed on it, null otherwise. *)
Definition GetObject_Ipv4 (n : nat) (w : World) : Ptr nat :=
  match w_static w !! n with
  | Some _ => Some n
  | None => None
  end.

(** [helper.GetStaticRouting(ipv4)]. *)
Definition GetStaticRouting (ip : nat) (w : World) : option RoutingTable :=
  w_static w !! ip.

(** [Simulator::Schedule(delay, action)]: the queue is kept in firing
    order, events of equal time in scheduling order. *)
Fixpoint insertEvent (ev : N * Action) (q : list (N * Action)) : list (N * Action) :=
  match q with
  | [] => [ev]
  | e :: q' => if ev.1 <? e.1 then ev :: q else e :: insertEvent ev q'
  end.

Definition Schedule (delay : N) (a : Action) (w : World) : World :=
  set_events (insertEvent (w_now w + delay, a) (w_events w)) w.

(** ** BgpSpeaker *)

(** [CreateObject<BgpSpeaker>(asn)]: the pointers are null, the next hop
    is the default-constructed [Ipv4Address] (102.102.102.102 in ns-3),
    there are no neighbors. *)
Definition BgpSpeaker_new (asn : N) : BgpSpeaker :=
  {| m_as := asn; m_node := None; m_ipv4 := None;
     m_nextHop := ipv4 102 102 102 102; m_neighbors := [] |}.

(** [Initialize(n, nextHop)]; calling through a null [n] has no result. *)
Definition Initialize (n : Ptr nat) (nextHop : Ipv4Address)
    (s : BgpSpeaker) (w : World) : option BgpSpeaker :=
  node ← n;
  Some {| m_as := m_as s; m_node := Some node;
          m_ipv4 := GetObject_Ipv4 node w;
          m_nextHop := nextHop; m_neighbors := m_neighbors s |}.

Definition AddNeighbor (asn : N) (s : BgpSpeaker) : BgpSpeaker :=
  {| m_as := m_as s; m_node := m_node s; m_ipv4 := m_ipv4 s;
     m_nextHop := m_nextHop s; m_neighbors := m_neighbors s ++ [asn] |}.

(** The two kinds of line [Advertise] writes. *)
Definition advertises_line (s : BgpSpeaker) (r : BgpRoute) : string :=
  "[BGP] AS" +:+ pretty (m_as s) +:+ " advertises " +:+
  print_Ipv4Address (prefix r) +:+ "/" +:+ pretty (GetPrefixLength (mask r)).

Definition sent_line (n : N) : string :=
  "  -> sent to AS" +:+ pretty n.

(** [Advertise(r)]. The result lists the objects the method can reach:
    the speaker itself, the route passed by reference, and the world. *)
Definition Advertise (r : BgpRoute) (s : BgpSpeaker) (w : World)
    : BgpSpeaker * BgpRoute * World :=
  let w1 := NS_LOG_UNCOND (advertises_line s r) w in
  let w2 := foldl (fun w' n => NS_LOG_UNCOND (sent_line n) w') w1 (m_neighbors s) in
  (s, r, w2).

Section Ns3StaticRouting.

(** [Ipv4StaticRouting::AddNetworkRouteTo] belongs to ns-3, not to this
    program. Older releases append the entry unconditionally; newer ones
    first look the entry up and add nothing when an equal entry with the
    same metric is present. [checkDuplicates] selects between the two. *)
Variable checkDuplicates : bool.

Definition LookupRoute (route : Ipv4RoutingTableEntry) (metric : N)
    (t : RoutingTable) : bool :=
  bool_decide ((route, metric) ∈ t).

Definition AddNetworkRouteTo (network : Ipv4Address) (networkMask : Ipv4Mask)
    (nextHop : Ipv4Address) (interface : N) (metric : N)
    (t : RoutingTable) : RoutingTable :=
  let route := mkEntry network networkMask nextHop interface in
  if checkDuplicates && LookupRoute route metric t then t
  else t ++ [(route, metric)].

(** [InstallRoute(net, mask)]; no result when [m_ipv4] is null or the
    node has no static routing. *)
Definition InstallRoute (net : Ipv4Address) (msk : Ipv4Mask)
    (s : BgpSpeaker) (w : World) : option (BgpSpeaker * World) :=
  ip ← m_ipv4 s;
  rt ← GetStaticRouting ip w;
  Some (s, set_static ip (AddNetworkRouteTo net msk (m_nextHop s) 1 0 rt) w).


(** ** The scenario of [main] *)

(** The two speaker objects the lambdas capture by reference, and the
    simulator they run in. *)
Record Sim := mkSim {
  as65001 : BgpSpeaker;
  as65002 : BgpSpeaker;
  world : World
}.

Definition newline : string := String (Ascii.ascii_of_N 10) "".

(** The body of each scheduled closure. *)
Definition exec (a : Action) (sim : Sim) : option Sim :=
  match a with
  | Lambda_t2 =>
      let r := mkRoute (ipv4 10 1 0 0) (ipv4 255 255 0 0) [65001] in
      let '(a1, r, w) := Advertise r (as65001 sim) (world sim) in
      '(a2, w) ← InstallRoute (prefix r) (mask r) (as65002 sim) w;
      Some (mkSim a1 a2 w)
  | Lambda_t3 =>
      let r := mkRoute (ipv4 10 2 0 0) (ipv4 255 255 0 0) [65002] in
      let '(a2, r, w) := Advertise r (as65002 sim) (world sim) in
      '(a1, w) ← InstallRoute (prefix r) (mask r) (as65001 sim) w;
      Some (mkSim a1 a2 w)
  | Lambda_leak =>
      let w := NS_LOG_UNCOND (newline +:+ "[SECURITY] ROUTE LEAK OCCURRED") (world sim) in
      '(a2, w) ← InstallRoute (ipv4 10 1 0 0) (ipv4 255 255 0 0) (as65002 sim) w;
      Some (mkSim (as65001 sim) a2 w)
  | Lambda_dump =>
      let w := NS_LOG_UNCOND (newline +:+ "=== ROUTING TABLES ===") (world sim) in
      (* PrintRoutingTableAllAt(Seconds(12), ...) schedules the printing
         12 s from now; what it prints goes to std::cout, outside the
         model. *)
      Some (mkSim (as65001 sim) (as65002 sim) (Schedule 12 PrintRoutingTableAll w))
  | PrintRoutingTableAll => Some sim
  end.

(** [Simulator::Stop(stop); Simulator::Run()]: fire the pending events in
    order up to time [stop]. [None] is a failed closure, or [fuel]
    exhausted before the queue was. *)
Fixpoint Run (fuel : nat) (stop : N) (sim : Sim) : option Sim :=
  match fuel with
  | O => None
  | S fuel' =>
      match w_events (world sim) with
      | [] => Some (mkSim (as65001 sim) (as65002 sim) (set_now stop (world sim)))
      | (t, a) :: q =>
          if stop <? t
          then Some (mkSim (as65001 sim) (as65002 sim) (set_now stop (world sim)))
          else
            sim' ← exec a (mkSim (as65001 sim) (as65002 sim)
                                 (set_now t (set_events q (world sim))));
            Run fuel' stop sim'
      end
  end.

(** [nodes.Create(6)] and [nodes.Get(i)]. *)
Definition nodes_Get (i : nat) : Ptr nat :=
  if decide (i < 6)%nat then Some i else None.

(** [internet.Install(nodes)] and the address assignment leave every
    node with a static routing table; [connected n] is what ns-3 has put
    in node [n]'s table by then. *)
Definition internet_Install (connected : nat → RoutingTable)
    : gmap nat (list (Ipv4RoutingTableEntry * N)) :=
  list_to_map ((λ n, (n, connected n)) <$> seq 0 6).

(** [main] up to [Simulator::Run()]. *)
Definition setup (connected : nat → RoutingTable) : option Sim :=
  let w := mkWorld (internet_Install connected) [] [] 0 in
  let a1 := BgpSpeaker_new 65001 in
  let a2 := BgpSpeaker_new 65002 in
  a1 ← Initialize (nodes_Get 0) (ipv4 10 1 1 2) a1 w;
  a2 ← Initialize (nodes_Get 3) (ipv4 10 2 1 2) a2 w;
  let a1 := AddNeighbor 65002 a1 in
  let a2 := AddNeighbor 65001 a2 in
  let w := Schedule 2 Lambda_t2 w in
  let w := Schedule 3 Lambda_t3 w in
  let w := Schedule 10 Lambda_leak w in
  let w := Schedule 12 Lambda_dump w in
  Some (mkSim a1 a2 w).

(** The scenario observed at time [t]: [main] with the stop time [t]
    ([main] itself stops at 25 s). *)
Definition stateAt (fuel : nat) (connected : nat → RoutingTable) (t : N) : option Sim :=
  setup connected ≫= Run fuel t.

Definition main (fuel : nat) (connected : nat → RoutingTable) : option Sim :=
  stateAt fuel connected 25.

End Ns3StaticRouting.

Close Scope string_scope.

(** ** Observations *)

(** The static routing table of node [n] (empty when it has none). *)
Definition tableOf (n : nat) (sim : Sim) : list (Ipv4RoutingTableEntry * N) :=
  default [] (w_static (world sim) !! n).

(** The entries a table holds for exactly the prefix [net]/[msk]. *)
Definition routesFor (net : Ipv4Address) (msk : Ipv4Mask)
    (t : list (Ipv4RoutingTableEntry * N)) : list Ipv4RoutingTableEntry :=
  filter (λ e, rt_dest e = net ∧ rt_mask e = msk) (t.*1).

(** The lines written to the log between two worlds. *)
Definition emitted (w w' : World) : list string :=
  drop (length (w_log w)) (w_log w').

(** How many of the lines are an emission to AS [a]. *)
Definition emissionsTo (a : N) (lines : list string) : nat :=
  length (filter (λ l, l = sent_line a) lines).

(** The speakers as [main] has set them up before [Simulator::Run()]. *)
Definition speakerA : BgpSpeaker :=
  mkSpeaker 65001 (Some 0%nat) (Some 0%nat) (ipv4 10 1 1 2) [65002].
Definition speakerB : BgpSpeaker :=
  mkSpeaker 65002 (Some 3%nat) (Some 3%nat) (ipv4 10 2 1 2) [65001].

(** The routes the two advertising lambdas build. *)
Definition routeA : BgpRoute := mkRoute (ipv4 10 1 0 0) (ipv4 255 255 0 0) [65001].
Definition routeB : BgpRoute := mkRoute (ipv4 10 2 0 0) (ipv4 255 255 0 0) [65002].

(** The entry [InstallRoute(net, msk)] on speaker [s] hands to
    [AddNetworkRouteTo]. *)
Definition installed (s : BgpSpeaker) (net : Ipv4Address) (msk : Ipv4Mask)
    : Ipv4RoutingTableEntry :=
  mkEntry net msk (m_nextHop s) 1.

(** A node with nothing in its static table yet. *)
Definition noConnected : nat → list (Ipv4RoutingTableEntry * N) := λ _, [].

(** The four public member functions of [BgpSpeaker] as one call. *)
Inductive Call :=
  | CInitialize (n : Ptr nat) (nextHop : Ipv4Address)
  | CAddNeighbor (asn : N)
  | CAdvertise (r : BgpRoute)
  | CInstallRoute (net : Ipv4Address) (msk : Ipv4Mask).

Definition call (d : bool) (c : Call) (s : BgpSpeaker) (w : World)
    : option (BgpSpeaker * World) :=
  match c with
  | CInitialize n nextHop => s' ← Initialize n nextHop s w; Some (s', w)
  | CAddNeighbor asn => Some (AddNeighbor asn s, w)
  | CAdvertise r => Some ((Advertise r s w).1.1, (Advertise r s w).2)
  | CInstallRoute net msk => InstallRoute d net msk s w
  end.

(** A speaker taking in the routes [rs] one after the other, each the way
    the lambdas of [main] do it: [InstallRoute(r.prefix, r.mask)]. *)
Fixpoint installAll (d : bool) (rs : list BgpRoute) (s : BgpSpeaker) (w : World)
    : option (BgpSpeaker * World) :=
  match rs with
  | [] => Some (s, w)
  | r :: rs' =>
      '(s', w') ← InstallRoute d (prefix r) (mask r) s w;
      installAll d rs' s' w'
  end.

(** ** The specification's statements that the program does not meet

    Each is written out as the specification words it, over the program's
    own operations, to be refuted at a concrete input below. *)

(** An entry goes via speaker [s] when its gateway names [s]: the AS number
    of [s], or an address inside the prefix [own] that [s] advertises. *)
Definition via (e : Ipv4RoutingTableEntry) (s : BgpSpeaker) (own : BgpRoute) : Prop :=
  rt_gateway e = m_as s ∨ N.land (rt_gateway e) (mask own) = prefix own.

(** End-to-end scenario: at t=4 AS-B holds 10.1.0.0/16 via A and AS-A holds
    10.2.0.0/16 via B. *)
Definition EndToEnd (d : bool) (c : nat → list (Ipv4RoutingTableEntry * N)) : Prop :=
  ∃ fuel sim eB eA,
    stateAt d fuel c 4 = Some sim ∧
    eB ∈ routesFor (prefix routeA) (mask routeA) (tableOf 3 sim) ∧
    via eB (as65001 sim) routeA ∧
    eA ∈ routesFor (prefix routeB) (mask routeB) (tableOf 0 sim) ∧
    via eA (as65002 sim) routeB.

(** Route leak observability: the route AS65002 holds for 10.1.0.0/16 after
    the leak of t=10 differs from the one it held at t=4. *)
Definition LeakObservable (d : bool) (c : nat → list (Ipv4RoutingTableEntry * N)) : Prop :=
  ∃ fuel before after e e',
    stateAt d fuel c 4 = Some before ∧
    stateAt d fuel c 10 = Some after ∧
    e ∈ routesFor (ipv4 10 1 0 0) (ipv4 255 255 0 0) (tableOf 3 before) ∧
    e' ∈ routesFor (ipv4 10 1 0 0) (ipv4 255 255 0 0) (tableOf 3 after) ∧
    e' ≠ e.

(** [Advertise] records the route in the speaker's table and appends the
    speaker's AS number to the path when it is not there. *)
Definition AdvertiseRecordsRoute : Prop :=
  ∀ r s w ip t,
    m_ipv4 s = Some ip → w_static w !! ip = Some t →
    (∃ e, e ∈ routesFor (prefix r) (mask r)
                (default [] (w_static (Advertise r s w).2 !! ip))) ∧
    (m_as s ∉ asPath r → asPath (Advertise r s w).1.2 = asPath r ++ [m_as s]).

(** [Advertise] schedules one event per neighbor at the current time. *)
Definition AdvertiseSchedulesReceive : Prop :=
  ∀ r s w,
    ∃ new, length new = length (m_neighbors s) ∧
           (∀ ev, ev ∈ new → ev.1 = w_now w) ∧
           w_events (Advertise r s w).2 ≡ₚ new ++ w_events w.

(** Loop prevention: taking in a route whose path holds the speaker's own
    AS number leaves the speaker's table as it was. *)
Definition LoopPrevention (d : bool) : Prop :=
  ∀ s r w s' w',
    m_as s ∈ asPath r →
    InstallRoute d (prefix r) (mask r) s w = Some (s', w') →
    w_static w' = w_static w.

(** Best-route selection: whatever routes for one prefix a speaker with an
    empty table has taken in, [Select] on its table returns one of them
    with the shortest path. *)
Definition shortest (best : BgpRoute) (rs : list BgpRoute) : Prop :=
  best ∈ rs ∧ ∀ r, r ∈ rs → (length (asPath best) ≤ length (asPath r))%nat.

Definition SelectsShortest (d : bool)
    (Select : list (Ipv4RoutingTableEntry * N) → Ipv4Address → Ipv4Mask → option BgpRoute)
    : Prop :=
  ∀ s w ip rs net msk s' w',
    m_ipv4 s = Some ip → w_static w !! ip = Some [] → rs ≠ [] →
    (∀ r, r ∈ rs → prefix r = net ∧ mask r = msk) →
    installAll d rs s w = Some (s', w') →
    ∃ best, Select (default [] (w_static w' !! ip)) net msk = Some best ∧
            shortest best rs.

(** ** Sequences of member calls *)

(** Member functions called one after the other on one speaker; the run
    stops with no result at the first call that has none. *)
Fixpoint runCalls (d : bool) (cs : list Call) (s : BgpSpeaker) (w : World)
    : option (BgpSpeaker * World) :=
  match cs with
  | [] => Some (s, w)
  | c :: cs' => '(s', w') ← call d c s w; runCalls d cs' s' w'
  end.

Definition isInitialize (c : Call) : bool :=
  match c with CInitialize _ _ => true | _ => false end.

Definition isInstallRoute (c : Call) : bool :=
  match c with CInstallRoute _ _ => true | _ => false end.

(** The neighbors a run of calls registers, in order. *)
Definition addedNeighbors (cs : list Call) : list N :=
  omap (λ c, match c with CAddNeighbor asn => Some asn | _ => None end) cs.

(** Every entry of every static routing table of [w] is still in the
    table of the same node in [w']. *)
Definition keepsRoutes (w w' : World) : Prop :=
  ∀ n t x, w_static w !! n = Some t → x ∈ t →
           ∃ t', w_static w' !! n = Some t' ∧ x ∈ t'.

(** ** The packet classifier of the classification exercise *)

(** Of the IP header [ClassifyPacket] reads the protocol number only. *)
Record Ipv4Header := mkIpv4Header { GetProtocol : N }.

Section PBRPolicyEngine.

(** Packets and their parsing belong to ns-3. [PeekHeader_Udp p] and
    [PeekHeader_Tcp p] stand for [copy->PeekHeader(udp)] and
    [copy->PeekHeader(tcp)]: the number of bytes read (zero when nothing
    was) and the destination port of the header read. *)
Variable Packet : Type.
Variable PeekHeader_Udp : Packet → N * N.
Variable PeekHeader_Tcp : Packet → N * N.

Definition ClassifyPacket (packet : Packet) (ipHeader : Ipv4Header) : N :=
  let copy := packet in
  let udp :=
    if GetProtocol ipHeader =? 17 then
      if negb ((PeekHeader_Udp copy).1 =? 0) then
        let dport := (PeekHeader_Udp copy).2 in
        if (5000 <=? dport) && (dport <=? 5010) then Some 1
        else if (6000 <=? dport) && (dport <=? 6010) then Some 2
        else None
      else None
    else None in
  match udp with
  | Some class => class
  | None =>
      let tcp :=
        if GetProtocol ipHeader =? 6 then
          if negb ((PeekHeader_Tcp copy).1 =? 0) then
            let dport := (PeekHeader_Tcp copy).2 in
            if (dport =? 80) || (dport =? 443) then Some 3 else None
          else None
        else None in
      match tcp with
      | Some class => class
      | None => 0
      end
  end.

End PBRPolicyEngine.

(** ** The eavesdropping callback of the DDoS exercise *)

(** The file's two counters and the lines written to [std::cout]. *)
Record IdsGlobals := mkIds {
  packetsCaptured : N;
  ddosThreshold : N;
  ids_cout : list string
}.

Definition ids_initial : IdsGlobals := mkIds 0 200 [].

Section Eavesdrop.

(** How [operator<<] prints [Simulator::Now().GetSeconds()], a double. *)
Variable show_seconds : Z → string.

Definition ids_line (now : Z) (captured : N) : string :=
  ("[IDS] Time=" +:+ show_seconds now +:+ "s  Captured packets=" +:+ pretty captured)%string.

(** [PromiscEavesdrop]; none of its six parameters is read, the simulator
    time [now] is. The counter is a [uint64_t]. *)
Definition PromiscEavesdrop (now : Z) (g : IdsGlobals) : bool * IdsGlobals :=
  let captured := (packetsCaptured g + 1) mod 2 ^ 64 in
  let out :=
    if captured mod 50 =? 0 then ids_cout g ++ [ids_line now captured]
    else ids_cout g in
  (true, mkIds captured (ddosThreshold g) out).

(** The callback fired once per packet, at the times given. *)
Definition eavesdropAll (times : list Z) (g : IdsGlobals) : IdsGlobals :=
  foldl (λ g' now, (PromiscEavesdrop now g').2) g times.

End Eavesdrop.

(** [subnet << "10.0." << i + 1 << ".0"] of the same exercise, [i] a
    [uint32_t]. *)
Definition attackerSubnet (i : N) : string :=
  ("10.0." +:+ pretty ((i + 1) mod 2 ^ 32) +:+ ".0")%string.

(** ** The transmission tracker of the fault-tolerance exercise *)

(** The file's globals and the lines written to [std::cout]. A [Time] is
    its number of nanoseconds. *)
Record FtGlobals := mkFt {
  primaryLinkFailureTime : Z;
  primaryLinkFailed : bool;
  packetsBeforeFailure : N;
  packetsAfterFailure : N;
  ft_cout : list string
}.

Section Track.

Variable show_seconds : Z → string.
(** The value of [Seconds(0.1)]. *)
Variable tenth : Z.

Definition failure_report (now : Z) (before : N) : list string :=
  [ (newline +:+ "[" +:+ show_seconds now +:+ "s] PRIMARY LINK FAILED!")%string;
    ("   Packets before failure: " +:+ pretty before)%string;
    "   Now using backup path..."%string ].

(** [TrackPacketTransmission]; the packet is not read, the simulator time
    [now] is. The counters are [uint32_t]. *)
Definition TrackPacketTransmission (now : Z) (g : FtGlobals) : FtGlobals :=
  if (now <? primaryLinkFailureTime g)%Z then
    mkFt (primaryLinkFailureTime g) (primaryLinkFailed g)
         ((packetsBeforeFailure g + 1) mod 2 ^ 32) (packetsAfterFailure g) (ft_cout g)
  else if (primaryLinkFailureTime g <=? now)%Z then
    let after := (packetsAfterFailure g + 1) mod 2 ^ 32 in
    if negb (primaryLinkFailed g) && (primaryLinkFailureTime g + tenth <=? now)%Z then
      mkFt (primaryLinkFailureTime g) true (packetsBeforeFailure g) after
           (ft_cout g ++ failure_report now (packetsBeforeFailure g))
    else
      mkFt (primaryLinkFailureTime g) (primaryLinkFailed g)
           (packetsBeforeFailure g) after (ft_cout g)
  else g.

(** The callback fired once per packet, at the times given. *)
Definition trackAll (times : list Z) (g : FtGlobals) : FtGlobals :=
  foldl (λ g' now, TrackPacketTransmission now g') g times.

End Track.

(** A packet at time [t] makes the tracker report, if it has not yet:
    the two tests of [now] that guard the report. *)
Definition triggers (tenth F t : Z) : Prop := (F ≤ t ∧ F + tenth ≤ t)%Z.

(** The globals as the file initialises them, the failure time as [main]
    sets it. *)
Definition ft_initial (failureTime : Z) : FtGlobals :=
  mkFt failureTime false 0 0 [].

(** ** Basic facts *)

(** [GetPrefixLength] is total on 32-bit masks: its loop is over after at
    most 32 rounds, more fuel changes nothing. *)
Lemma GetPrefixLength_loop_fuel f k m tmp :
  m < 2 ^ 32 → (m * 2 ^ N.of_nat f) mod 2 ^ 32 = 0 →
  GetPrefixLength_loop (f + k) m tmp = GetPrefixLength_loop f m tmp.
Proof.
  revert m tmp. induction f as [|f IH]; intros m tmp Hm Hz.
  - simpl in Hz. rewrite N.mul_1_r, N.mod_small in Hz by done. subst m.
    destruct k; reflexivity.
  - simpl. destruct (N.eqb m 0); [done|].
    change 4294967295 with (N.ones 32).
    rewrite N.land_ones, N.shiftl_mul_pow2, N.pow_1_r.
    apply IH.
    + apply N.mod_lt. done.
    + rewrite N.Div0.mul_mod_idemp_l.
      rewrite <- Hz. f_equal.
      rewrite Nat2N.inj_succ, N.pow_succ_r'. lia.
Qed.

Lemma GetPrefixLength_total k m :
  m < 2 ^ 32 → GetPrefixLength_loop (32 + k) m 0 = GetPrefixLength m.
Proof.
  intros Hm. apply GetPrefixLength_loop_fuel; [done|].
  change (2 ^ N.of_nat 32) with (2 ^ 32). apply N.Div0.mod_mul.
Qed.

Section Facts.

Variable d : bool.

Lemma elem_of_AddNetworkRouteTo net msk nh ifc metric t x :
  x ∈ AddNetworkRouteTo d net msk nh ifc metric t ↔
  x ∈ t ∨ x = (mkEntry net msk nh ifc, metric).
Proof.
  unfold AddNetworkRouteTo, LookupRoute.
  destruct d; simpl.
  - case_bool_decide as Hin; simpl.
    + split; [auto | intros [?| ->]; done].
    + rewrite elem_of_app, list_elem_of_singleton. done.
  - rewrite elem_of_app, list_elem_of_singleton. done.
Qed.

Lemma AddNetworkRouteTo_installs net msk nh ifc metric t :
  (mkEntry net msk nh ifc, metric) ∈ AddNetworkRouteTo d net msk nh ifc metric t.
Proof. apply elem_of_AddNetworkRouteTo. by right. Qed.

Lemma AddNetworkRouteTo_twice net msk nh ifc metric t x :
  x ∈ AddNetworkRouteTo d net msk nh ifc metric
        (AddNetworkRouteTo d net msk nh ifc metric t) ↔
  x ∈ AddNetworkRouteTo d net msk nh ifc metric t.
Proof. rewrite !elem_of_AddNetworkRouteTo. tauto. Qed.

End Facts.

(** [NS_LOG_UNCOND] in a loop touches the log only. *)
Lemma foldl_log_static (f : N → string) ns w :
  w_static (foldl (λ w' n, NS_LOG_UNCOND (f n) w') w ns) = w_static w.
Proof. revert w. induction ns as [|n ns IH]; intros w; simpl; [done | by rewrite IH]. Qed.

Lemma foldl_log_events (f : N → string) ns w :
  w_events (foldl (λ w' n, NS_LOG_UNCOND (f n) w') w ns) = w_events w.
Proof. revert w. induction ns as [|n ns IH]; intros w; simpl; [done | by rewrite IH]. Qed.

Lemma foldl_log_now (f : N → string) ns w :
  w_now (foldl (λ w' n, NS_LOG_UNCOND (f n) w') w ns) = w_now w.
Proof. revert w. induction ns as [|n ns IH]; intros w; simpl; [done | by rewrite IH]. Qed.

Lemma foldl_log_log (f : N → string) ns w :
  w_log (foldl (λ w' n, NS_LOG_UNCOND (f n) w') w ns) = w_log w ++ (f <$> ns).
Proof.
  revert w. induction ns as [|n ns IH]; intros w; simpl.
  - by rewrite app_nil_r.
  - rewrite IH. simpl. by rewrite <- app_assoc.
Qed.

Lemma Advertise_world r s w :
  (Advertise r s w).2 =
  mkWorld (w_static w)
          (w_log w ++ advertises_line s r :: (sent_line <$> m_neighbors s))
          (w_events w) (w_now w).
Proof.
  unfold Advertise. simpl.
  set (w2 := foldl _ _ _).
  assert (Hs : w_static w2 = w_static w) by (unfold w2; by rewrite foldl_log_static).
  assert (He : w_events w2 = w_events w) by (unfold w2; by rewrite foldl_log_events).
  assert (Hn : w_now w2 = w_now w) by (unfold w2; by rewrite foldl_log_now).
  assert (Hl : w_log w2 = w_log w ++ advertises_line s r :: (sent_line <$> m_neighbors s)).
  { unfold w2. rewrite foldl_log_log. simpl. by rewrite <- app_assoc. }
  destruct w2; simpl in *. by subst.
Qed.

Lemma Advertise_objects r s w : (Advertise r s w).1 = (s, r).
Proof. reflexivity. Qed.

Lemma InstallRoute_Some d net msk s w ip t :
  m_ipv4 s = Some ip → w_static w !! ip = Some t →
  InstallRoute d net msk s w =
  Some (s, set_static ip (AddNetworkRouteTo d net msk (m_nextHop s) 1 0 t) w).
Proof.
  intros Hip Ht. unfold InstallRoute, GetStaticRouting.
  rewrite Hip. simpl. rewrite Ht. done.
Qed.

(** ** The event loop *)

Lemma Run_fuel_mono d f f' stop sim r :
  Run d f stop sim = Some r → (f ≤ f')%nat → Run d f' stop sim = Some r.
Proof.
  revert f' sim. induction f as [|f IH]; intros f' sim Hrun Hle; [done|].
  destruct f' as [|f']; [lia|].
  simpl in *. destruct (w_events (world sim)) as [|[t a] q]; [done|].
  destruct (stop <? t); [done|].
  destruct (exec d a _) as [sim'|]; simpl in *; [|done].
  apply IH; [done | lia].
Qed.

Lemma Run_fuel_det d f f' stop sim r r' :
  Run d f stop sim = Some r → Run d f' stop sim = Some r' → r = r'.
Proof.
  intros H H'.
  apply (Run_fuel_mono _ _ (f + f')) in H; [|lia].
  apply (Run_fuel_mono _ _ (f + f')) in H'; [|lia].
  congruence.
Qed.

(** Stopping at [t1] and running on to [t2] is running to [t2]. *)
Lemma Run_resume d f1 f2 t1 t2 sim sim1 sim2 :
  t1 ≤ t2 →
  Run d f1 t1 sim = Some sim1 →
  Run d f2 t2 sim1 = Some sim2 →
  Run d (f1 + f2) t2 sim = Some sim2.
Proof.
  intros Ht. revert sim. induction f1 as [|f1 IH]; intros sim H1 H2; [done|].
  destruct f2 as [|f2]; [done|].
  simpl in H1. simpl.
  destruct sim as [a b w]; simpl in *.
  destruct (w_events w) as [|[t act] q] eqn:Hq.
  - inversion H1; subst sim1. simpl in H2. rewrite Hq in H2. done.
  - destruct (t1 <? t) eqn:Hcmp.
    + inversion H1; subst sim1. simpl in H2. rewrite Hq in H2.
      destruct (t2 <? t); [done|].
      change (set_now t (set_events q (set_now t1 w)))
        with (set_now t (set_events q w)) in H2.
      destruct (exec d act _) as [sim'|]; simpl in *; [|done].
      eapply Run_fuel_mono; [done | lia].
    + apply N.ltb_ge in Hcmp.
      assert ((t2 <? t) = false) as -> by (apply N.ltb_ge; lia).
      destruct (exec d act _) as [sim'|]; simpl in *; [|done].
      by apply IH.
Qed.

(** ** The scenario, step by step *)

Lemma internet_Install_lookup c n :
  (n < 6)%nat → internet_Install c !! n = Some (c n).
Proof.
  intros Hn. do 6 (destruct n as [|n]; [reflexivity|]). lia.
Qed.

Lemma setup_eq c :
  setup c =
  Some (mkSim speakerA speakerB
              (mkWorld (internet_Install c) []
                 [(2, Lambda_t2); (3, Lambda_t3); (10, Lambda_leak); (12, Lambda_dump)] 0)).
Proof. reflexivity. Qed.

Ltac install_at ip t :=
  erewrite (InstallRoute_Some _ _ _ _ _ ip t);
  [ simpl
  | reflexivity
  | simpl; rewrite ?lookup_insert_eq, ?lookup_insert_ne by done;
    first [ reflexivity | by apply internet_Install_lookup; lia ] ].

Section Scenario.

Variable d : bool.
Variable c : nat → list (Ipv4RoutingTableEntry * N).

(** Node 3 after the lambda of t=2, node 0 after the lambda of t=3. *)
Let T3 := AddNetworkRouteTo d (ipv4 10 1 0 0) (ipv4 255 255 0 0) (ipv4 10 2 1 2) 1 0 (c 3%nat).
Let T0 := AddNetworkRouteTo d (ipv4 10 2 0 0) (ipv4 255 255 0 0) (ipv4 10 1 1 2) 1 0 (c 0%nat).
(** Node 3 after the leak. *)
Let T3' := AddNetworkRouteTo d (ipv4 10 1 0 0) (ipv4 255 255 0 0) (ipv4 10 2 1 2) 1 0 T3.

Lemma stateAt_4 :
  stateAt d 8 c 4 =
  Some (mkSim speakerA speakerB
          (mkWorld (<[0%nat := T0]> (<[3%nat := T3]> (internet_Install c)))
             [ "[BGP] AS65001 advertises 10.1.0.0/16"%string;
               "  -> sent to AS65002"%string;
               "[BGP] AS65002 advertises 10.2.0.0/16"%string;
               "  -> sent to AS65001"%string ]
             [(10, Lambda_leak); (12, Lambda_dump)] 4)).
Proof.
  unfold stateAt. rewrite setup_eq. simpl.
  install_at 3%nat (c 3%nat).
  install_at 0%nat (c 0%nat).
  reflexivity.
Qed.

Lemma stateAt_10 :
  stateAt d 8 c 10 =
  Some (mkSim speakerA speakerB
          (mkWorld (<[3%nat := T3']> (<[0%nat := T0]> (<[3%nat := T3]> (internet_Install c))))
             [ "[BGP] AS65001 advertises 10.1.0.0/16"%string;
               "  -> sent to AS65002"%string;
               "[BGP] AS65002 advertises 10.2.0.0/16"%string;
               "  -> sent to AS65001"%string;
               (newline +:+ "[SECURITY] ROUTE LEAK OCCURRED")%string ]
             [(12, Lambda_dump)] 10)).
Proof.
  unfold stateAt. rewrite setup_eq. simpl.
  install_at 3%nat (c 3%nat).
  install_at 0%nat (c 0%nat).
  install_at 3%nat T3.
  reflexivity.
Qed.

(** [main] runs to its end: the queue is empty at 25 s. *)
Lemma main_eq :
  main d 8 c =
  Some (mkSim speakerA speakerB
          (mkWorld (<[3%nat := T3']> (<[0%nat := T0]> (<[3%nat := T3]> (internet_Install c))))
             [ "[BGP] AS65001 advertises 10.1.0.0/16"%string;
               "  -> sent to AS65002"%string;
               "[BGP] AS65002 advertises 10.2.0.0/16"%string;
               "  -> sent to AS65001"%string;
               (newline +:+ "[SECURITY] ROUTE LEAK OCCURRED")%string;
               (newline +:+ "=== ROUTING TABLES ===")%string ]
             [] 25)).
Proof.
  unfold main, stateAt. rewrite setup_eq. simpl.
  install_at 3%nat (c 3%nat).
  install_at 0%nat (c 0%nat).
  install_at 3%nat T3.
  reflexivity.
Qed.

End Scenario.

Lemma stateAt_det d f f' c t sim sim' :
  stateAt d f c t = Some sim → stateAt d f' c t = Some sim' → sim = sim'.
Proof.
  unfold stateAt. rewrite setup_eq. simpl. apply Run_fuel_det.
Qed.

(** What is observed at a time [t] up to 25 s is a state [main] passes
    through: running on from it is running [main]. *)
Lemma stateAt_then_main d f1 f2 c t sim sim' :
  t ≤ 25 → stateAt d f1 c t = Some sim → Run d f2 25 sim = Some sim' →
  main d (f1 + f2) c = Some sim'.
Proof.
  unfold main, stateAt. rewrite setup_eq. simpl. intros Ht H1 H2.
  by apply (Run_resume d f1 f2 t 25 _ sim sim').
Qed.

(** ** The scenario of [main]: claims C2, C1 and C8 *)

Lemma tableOf_3_at_4 d c sim :
  stateAt d 8 c 4 = Some sim →
  tableOf 3 sim =
  AddNetworkRouteTo d (ipv4 10 1 0 0) (ipv4 255 255 0 0) (ipv4 10 2 1 2) 1 0 (c 3%nat).
Proof.
  rewrite stateAt_4. intros [= <-]. unfold tableOf. simpl.
  rewrite lookup_insert_ne, lookup_insert_eq by done. done.
Qed.

Lemma tableOf_0_at_4 d c sim :
  stateAt d 8 c 4 = Some sim →
  tableOf 0 sim =
  AddNetworkRouteTo d (ipv4 10 2 0 0) (ipv4 255 255 0 0) (ipv4 10 1 1 2) 1 0 (c 0%nat).
Proof.
  rewrite stateAt_4. intros [= <-]. unfold tableOf. simpl.
  rewrite lookup_insert_eq. done.
Qed.

Lemma tableOf_3_at_10 d c sim :
  stateAt d 8 c 10 = Some sim →
  tableOf 3 sim =
  AddNetworkRouteTo d (ipv4 10 1 0 0) (ipv4 255 255 0 0) (ipv4 10 2 1 2) 1 0
    (AddNetworkRouteTo d (ipv4 10 1 0 0) (ipv4 255 255 0 0) (ipv4 10 2 1 2) 1 0 (c 3%nat)).
Proof.
  rewrite stateAt_10. intros [= <-]. unfold tableOf. simpl.
  rewrite lookup_insert_eq. done.
Qed.

Lemma elem_of_routesFor net msk t e :
  e ∈ routesFor net msk t ↔
  (∃ metric, (e, metric) ∈ t) ∧ rt_dest e = net ∧ rt_mask e = msk.
Proof.
  unfold routesFor. rewrite list_elem_of_filter, list_elem_of_fmap. split.
  - intros [Hp [[e0 m] [-> Hin]]]. split; [by exists m | done].
  - intros [[m Hin] Hp]. split; [done | by exists (e, m)].
Qed.

(** C2, as the specification states it, fails: the entry AS-B holds for
    10.1.0.0/16 at t=4 has the gateway 10.2.1.2, AS-B's own next hop inside
    10.2.0.0/16, which is neither AS-A's number nor an address of AS-A's
    prefix; likewise for AS-A. Both ns-3 behaviours are covered. *)
Lemma end_to_end_not_via_peer :
  tableOf 3 <$> stateAt false 8 noConnected 4
    = Some [(mkEntry (ipv4 10 1 0 0) (ipv4 255 255 0 0) (ipv4 10 2 1 2) 1, 0)] ∧
  tableOf 0 <$> stateAt false 8 noConnected 4
    = Some [(mkEntry (ipv4 10 2 0 0) (ipv4 255 255 0 0) (ipv4 10 1 1 2) 1, 0)] ∧
  ¬ EndToEnd false noConnected ∧ ¬ EndToEnd true noConnected.
Proof.
  split; [vm_compute; reflexivity|].
  split; [vm_compute; reflexivity|].
  assert (H : ∀ d, ¬ EndToEnd d noConnected).
  { intros d (fuel & sim & eB & eA & Hs & HB & Hv & _).
    assert (Hs8 : stateAt d 8 noConnected 4 = Some sim).
    { rewrite stateAt_4. f_equal. eapply stateAt_det; [apply stateAt_4 | exact Hs]. }
    rewrite (tableOf_3_at_4 _ _ _ Hs8) in HB.
    apply elem_of_routesFor in HB as [[m Hin] _].
    apply elem_of_AddNetworkRouteTo in Hin as [Hin | Hin].
    - by apply not_elem_of_nil in Hin.
    - injection Hin as -> _.
      rewrite stateAt_4 in Hs8. injection Hs8 as <-.
      destruct Hv as [Hv | Hv]; vm_compute in Hv; discriminate. }
  split; apply H.
Qed.

(** C2, amended: at t=4, AS-B's static routing table is its initial table
    with the entry 10.1.0.0/16 -> 10.2.1.2 (the next hop AS-B was
    initialised with), interface 1, metric 0, added; AS-A's is its initial
    table with 10.2.0.0/16 -> 10.1.1.2, interface 1, metric 0, added; the
    log holds the two advertisements and the leak and dump are pending. *)
Theorem scenario_at_4 (d : bool) (c : nat → list (Ipv4RoutingTableEntry * N)) :
  ∃ sim,
    stateAt d 8 c 4 = Some sim ∧
    as65001 sim = speakerA ∧ as65002 sim = speakerB ∧
    tableOf 3 sim = AddNetworkRouteTo d (prefix routeA) (mask routeA) (m_nextHop speakerB) 1 0 (c 3%nat) ∧
    tableOf 0 sim = AddNetworkRouteTo d (prefix routeB) (mask routeB) (m_nextHop speakerA) 1 0 (c 0%nat) ∧
    (installed speakerB (ipv4 10 1 0 0) (ipv4 255 255 0 0), 0) ∈ tableOf 3 sim ∧
    (installed speakerA (ipv4 10 2 0 0) (ipv4 255 255 0 0), 0) ∈ tableOf 0 sim ∧
    m_nextHop speakerB = ipv4 10 2 1 2 ∧ m_nextHop speakerA = ipv4 10 1 1 2 ∧
    w_log (world sim) =
      [ "[BGP] AS65001 advertises 10.1.0.0/16"%string; "  -> sent to AS65002"%string;
        "[BGP] AS65002 advertises 10.2.0.0/16"%string; "  -> sent to AS65001"%string ] ∧
    w_events (world sim) = [(10, Lambda_leak); (12, Lambda_dump)].
Proof.
  eexists. split; [apply stateAt_4|].
  split; [done|]. split; [done|].
  rewrite (tableOf_3_at_4 d c _ (stateAt_4 d c)), (tableOf_0_at_4 d c _ (stateAt_4 d c)).
  split; [done|]. split; [done|].
  split; [apply AddNetworkRouteTo_installs|].
  split; [apply AddNetworkRouteTo_installs|].
  done.
Qed.

Lemma stateAt_fuel_8 d f c t sim sim8 :
  stateAt d f c t = Some sim → stateAt d 8 c t = Some sim8 → stateAt d 8 c t = Some sim.
Proof. intros H H8. rewrite H8. f_equal. eapply stateAt_det; eauto. Qed.

(** C1, as the specification states it, fails: with nothing else in the
    table, the only route AS65002 holds for 10.1.0.0/16 after the leak is
    the entry it held at t=4 (held twice when ns-3 does not check for
    duplicates). *)
Lemma leak_not_observable :
  routesFor (ipv4 10 1 0 0) (ipv4 255 255 0 0) <$> (tableOf 3 <$> stateAt false 8 noConnected 4)
    = Some [mkEntry (ipv4 10 1 0 0) (ipv4 255 255 0 0) (ipv4 10 2 1 2) 1] ∧
  routesFor (ipv4 10 1 0 0) (ipv4 255 255 0 0) <$> (tableOf 3 <$> stateAt false 8 noConnected 10)
    = Some [mkEntry (ipv4 10 1 0 0) (ipv4 255 255 0 0) (ipv4 10 2 1 2) 1;
            mkEntry (ipv4 10 1 0 0) (ipv4 255 255 0 0) (ipv4 10 2 1 2) 1] ∧
  routesFor (ipv4 10 1 0 0) (ipv4 255 255 0 0) <$> (tableOf 3 <$> stateAt true 8 noConnected 4)
    = Some [mkEntry (ipv4 10 1 0 0) (ipv4 255 255 0 0) (ipv4 10 2 1 2) 1] ∧
  routesFor (ipv4 10 1 0 0) (ipv4 255 255 0 0) <$> (tableOf 3 <$> stateAt true 8 noConnected 10)
    = Some [mkEntry (ipv4 10 1 0 0) (ipv4 255 255 0 0) (ipv4 10 2 1 2) 1] ∧
  ¬ LeakObservable false noConnected ∧ ¬ LeakObservable true noConnected.
Proof.
  do 4 (split; [vm_compute; reflexivity|]).
  assert (H : ∀ d, ¬ LeakObservable d noConnected).
  { intros d (fuel & before & after & e & e' & H4 & H10 & He & He' & Hne).
    pose proof (stateAt_fuel_8 _ _ _ _ _ _ H4 (stateAt_4 _ _)) as H4'.
    pose proof (stateAt_fuel_8 _ _ _ _ _ _ H10 (stateAt_10 _ _)) as H10'.
    rewrite (tableOf_3_at_4 _ _ _ H4') in He.
    rewrite (tableOf_3_at_10 _ _ _ H10') in He'.
    apply elem_of_routesFor in He as [[m Hin] _].
    apply elem_of_routesFor in He' as [[m' Hin'] _].
    rewrite AddNetworkRouteTo_twice in Hin'.
    apply elem_of_AddNetworkRouteTo in Hin as [Hin | Hin];
      [by apply not_elem_of_nil in Hin|].
    apply elem_of_AddNetworkRouteTo in Hin' as [Hin' | Hin'];
      [by apply not_elem_of_nil in Hin'|].
    congruence. }
  split; apply H.
Qed.

(** C1, amended: the leak of t=10 hands AS65002's table the very entry
    it was handed at t=2, 10.1.0.0/16 -> 10.2.1.2, interface 1, metric 0:
    the table after the leak is [AddNetworkRouteTo] of that entry on the
    table before it. Where ns-3 checks for duplicates the table is the
    one of t=4; where it does not, the table is the one of t=4 with the
    entry once more at its end. Either way the table holds the same
    entries, and the same routes for 10.1.0.0/16, before and after the
    leak. The leak writes its line to the log and touches nothing else:
    AS65001's table, the speakers. The leaked prefix is the one AS65001
    advertised, not the one AS65002 advertises. On any state in which
    AS65002 is initialised, the leak lambda is this one [InstallRoute]
    after its log line. *)
Theorem leak_holds_same_routes (d : bool) (c : nat → list (Ipv4RoutingTableEntry * N)) :
  (∃ before after,
    stateAt d 8 c 4 = Some before ∧
    stateAt d 8 c 10 = Some after ∧
    tableOf 3 before =
      AddNetworkRouteTo d (prefix routeA) (mask routeA) (m_nextHop speakerB) 1 0 (c 3%nat) ∧
    tableOf 3 after =
      AddNetworkRouteTo d (ipv4 10 1 0 0) (ipv4 255 255 0 0) (m_nextHop speakerB) 1 0
        (tableOf 3 before) ∧
    tableOf 3 after =
      (if d then tableOf 3 before
       else tableOf 3 before ++ [(installed speakerB (ipv4 10 1 0 0) (ipv4 255 255 0 0), 0)]) ∧
    installed speakerB (ipv4 10 1 0 0) (ipv4 255 255 0 0)
      = mkEntry (ipv4 10 1 0 0) (ipv4 255 255 0 0) (ipv4 10 2 1 2) 1 ∧
    (∀ x, x ∈ tableOf 3 after ↔ x ∈ tableOf 3 before) ∧
    (∀ e, e ∈ routesFor (ipv4 10 1 0 0) (ipv4 255 255 0 0) (tableOf 3 after) ↔
          e ∈ routesFor (ipv4 10 1 0 0) (ipv4 255 255 0 0) (tableOf 3 before)) ∧
    installed speakerB (ipv4 10 1 0 0) (ipv4 255 255 0 0)
      ∈ routesFor (ipv4 10 1 0 0) (ipv4 255 255 0 0) (tableOf 3 before) ∧
    tableOf 0 after = tableOf 0 before ∧
    as65001 after = as65001 before ∧ as65002 after = as65002 before ∧
    w_log (world after) =
      w_log (world before) ++ [(newline +:+ "[SECURITY] ROUTE LEAK OCCURRED")%string] ∧
    w_events (world before) = (10, Lambda_leak) :: w_events (world after) ∧
    ipv4 10 1 0 0 = prefix routeA ∧ ipv4 10 1 0 0 ≠ prefix routeB) ∧
  (∀ sim ip t,
     m_ipv4 (as65002 sim) = Some ip → w_static (world sim) !! ip = Some t →
     exec d Lambda_leak sim =
     Some (mkSim (as65001 sim) (as65002 sim)
             (mkWorld
                (<[ip := AddNetworkRouteTo d (ipv4 10 1 0 0) (ipv4 255 255 0 0)
                           (m_nextHop (as65002 sim)) 1 0 t]> (w_static (world sim)))
                (w_log (world sim) ++ [(newline +:+ "[SECURITY] ROUTE LEAK OCCURRED")%string])
                (w_events (world sim)) (w_now (world sim))))).
Proof.
  split.
  - eexists _, _. split; [apply stateAt_4|]. split; [apply stateAt_10|].
    rewrite (tableOf_3_at_4 d c _ (stateAt_4 d c)).
    rewrite (tableOf_3_at_10 d c _ (stateAt_10 d c)).
    assert (Hsame := AddNetworkRouteTo_twice d (ipv4 10 1 0 0) (ipv4 255 255 0 0)
                       (ipv4 10 2 1 2) 1 0 (c 3%nat)).
    split; [reflexivity|]. split; [reflexivity|].
    split.
    { destruct d.
      - unfold AddNetworkRouteTo at 1. cbn [andb]. unfold LookupRoute.
        rewrite bool_decide_eq_true_2; [done|].
        apply AddNetworkRouteTo_installs.
      - reflexivity. }
    split; [reflexivity|].
    split; [exact Hsame|].
    split.
    { intros e. rewrite !elem_of_routesFor. by setoid_rewrite Hsame. }
    split.
    { apply elem_of_routesFor. split; [|done].
      exists 0. apply AddNetworkRouteTo_installs. }
    split.
    { unfold tableOf. simpl. by rewrite lookup_insert_ne, !lookup_insert_eq by done. }
    do 4 (split; [reflexivity|]).
    split; [reflexivity | by vm_compute].
  - intros sim ip t Hip Ht. cbn [exec].
    rewrite (InstallRoute_Some d _ _ _ _ ip t) by done.
    reflexivity.
Qed.

(** C8: on a speaker initialised with next hop [nh] on a node that has a
    static routing table, [InstallRoute(net, msk)] succeeds and hands the
    table the entry [net]/[msk] -> [nh], interface 1 (metric 0), whatever
    the prefix is, and no path or origin AS enters; the table gains that
    entry and no other. In the scenario the table of AS65002's node at
    t=10 is its table at t=4 handed the very entry of t=2 again. *)
Theorem InstallRoute_fixed_next_hop (d : bool) (c : nat → list (Ipv4RoutingTableEntry * N))
    (s0 s : BgpSpeaker) (n : nat) (nh : Ipv4Address) (w : World)
    (net : Ipv4Address) (msk : Ipv4Mask) (t : list (Ipv4RoutingTableEntry * N)) :
  w_static w !! n = Some t →
  Initialize (Some n) nh s0 w = Some s →
  (∃ w',
     InstallRoute d net msk s w = Some (s, w') ∧
     w_static w' = <[n := AddNetworkRouteTo d net msk nh 1 0 t]> (w_static w) ∧
     (mkEntry net msk nh 1, 0) ∈ default [] (w_static w' !! n) ∧
     (∀ x, x ∈ default [] (w_static w' !! n) ↔ x ∈ t ∨ x = (mkEntry net msk nh 1, 0)) ∧
     w_log w' = w_log w ∧ w_events w' = w_events w) ∧
  (∃ s4 s10,
     stateAt d 8 c 4 = Some s4 ∧ stateAt d 8 c 10 = Some s10 ∧
     tableOf 3 s4 =
       AddNetworkRouteTo d (ipv4 10 1 0 0) (ipv4 255 255 0 0) (ipv4 10 2 1 2) 1 0 (c 3%nat) ∧
     tableOf 3 s10 =
       AddNetworkRouteTo d (ipv4 10 1 0 0) (ipv4 255 255 0 0) (ipv4 10 2 1 2) 1 0 (tableOf 3 s4) ∧
     installed (as65002 s4) (prefix routeA) (mask routeA) =
       installed (as65002 s10) (ipv4 10 1 0 0) (ipv4 255 255 0 0)).
Proof.
  intros Ht Hinit. split.
  - unfold Initialize in Hinit. simpl in Hinit.
    unfold GetObject_Ipv4 in Hinit. rewrite Ht in Hinit. injection Hinit as <-.
    eexists. split.
    { apply (InstallRoute_Some d net msk _ w n t); [reflexivity | exact Ht]. }
    simpl. rewrite lookup_insert_eq. simpl.
    split; [done|]. split; [apply AddNetworkRouteTo_installs|].
    split; [apply elem_of_AddNetworkRouteTo | done].
  - eexists _, _. split; [apply stateAt_4|]. split; [apply stateAt_10|].
    rewrite (tableOf_3_at_4 d c _ (stateAt_4 d c)).
    rewrite (tableOf_3_at_10 d c _ (stateAt_10 d c)).
    done.
Qed.

Lemma InstallRoute_fixed_next_hop_witness :
  ∃ w',
    InstallRoute true (ipv4 10 1 0 0) (ipv4 255 255 0 0)
      (mkSpeaker 65002 (Some 3%nat) (Some 3%nat) (ipv4 10 2 1 2) [])
      (mkWorld (internet_Install noConnected) [] [] 0)
    = Some (mkSpeaker 65002 (Some 3%nat) (Some 3%nat) (ipv4 10 2 1 2) [], w') ∧
    (mkEntry (ipv4 10 1 0 0) (ipv4 255 255 0 0) (ipv4 10 2 1 2) 1, 0)
      ∈ default [] (w_static w' !! 3%nat).
Proof.
  destruct (InstallRoute_fixed_next_hop true noConnected (BgpSpeaker_new 65002)
              (mkSpeaker 65002 (Some 3%nat) (Some 3%nat) (ipv4 10 2 1 2) [])
              3 (ipv4 10 2 1 2) (mkWorld (internet_Install noConnected) [] [] 0)
              (ipv4 10 1 0 0) (ipv4 255 255 0 0) [])
    as [(w' & Hi & _ & Hin & _) _].
  - reflexivity.
  - reflexivity.
  - exists w'. split; [exact Hi | exact Hin].
Defined.

(** ** [Advertise]: claims C3, C4, C9 and C10 *)

Lemma sent_line_inj a b : sent_line a = sent_line b → a = b.
Proof.
  unfold sent_line. cbn [String.append]. intros H.
  injection H as H. by apply (inj pretty).
Qed.

Lemma advertises_line_not_sent s r a : advertises_line s r ≠ sent_line a.
Proof. unfold advertises_line, sent_line. cbn [String.append]. discriminate. Qed.

Lemma emitted_app w l w' : w_log w' = w_log w ++ l → emitted w w' = l.
Proof. unfold emitted. intros ->. by rewrite drop_app_length. Qed.

Lemma emitted_Advertise r s w :
  emitted w (Advertise r s w).2 = advertises_line s r :: (sent_line <$> m_neighbors s).
Proof. apply emitted_app. by rewrite Advertise_world. Qed.

Lemma emissionsTo_sent a ns :
  emissionsTo a (sent_line <$> ns) = length (filter (λ n, n = a) ns).
Proof.
  unfold emissionsTo. induction ns as [|n ns IH]; [done|].
  rewrite fmap_cons, !filter_cons.
  destruct (decide (n = a)) as [->|Hne].
  - rewrite decide_True by done. simpl. by rewrite IH.
  - rewrite decide_False; [done|]. intros ?%sent_line_inj. done.
Qed.

Lemma emissionsTo_Advertise a r s w :
  emissionsTo a (emitted w (Advertise r s w).2) =
  length (filter (λ n, n = a) (m_neighbors s)).
Proof.
  rewrite emitted_Advertise. unfold emissionsTo.
  rewrite filter_cons, decide_False by apply advertises_line_not_sent.
  apply emissionsTo_sent.
Qed.

(** C3, as the specification states it, fails: AS65001 advertising the
    route 10.2.0.0/16 with path [65002] neither gets its own number
    appended to the path nor any entry for the prefix into its table. *)
Lemma Advertise_does_not_record :
  (m_as speakerA ∉ asPath routeB) ∧
  asPath (Advertise routeB speakerA (mkWorld (internet_Install noConnected) [] [] 0)).1.2
    = [65002] ∧
  routesFor (prefix routeB) (mask routeB)
    (default [] (w_static (Advertise routeB speakerA
                             (mkWorld (internet_Install noConnected) [] [] 0)).2 !! 0%nat))
    = [] ∧
  ¬ AdvertiseRecordsRoute.
Proof.
  split; [by intros ?%list_elem_of_singleton|].
  split; [reflexivity|]. split; [reflexivity|].
  intros H.
  destruct (H routeB speakerA (mkWorld (internet_Install noConnected) [] [] 0)
              0%nat [] eq_refl eq_refl) as [[e He] _].
  vm_compute in He. by apply not_elem_of_nil in He.
Qed.

(** C3, amended: [Advertise(r)] on [s] records nothing. The speaker and
    the route, its path included, are as before, and so is every static
    routing table, hence the routes held for any prefix; the call only
    writes its lines to the log. *)
Theorem Advertise_records_nothing (r : BgpRoute) (s : BgpSpeaker) (w : World) :
  (Advertise r s w).1 = (s, r) ∧
  asPath (Advertise r s w).1.2 = asPath r ∧
  w_static (Advertise r s w).2 = w_static w ∧
  (∀ n net msk,
     routesFor net msk (default [] (w_static (Advertise r s w).2 !! n)) =
     routesFor net msk (default [] (w_static w !! n))) ∧
  w_log (Advertise r s w).2 =
    w_log w ++ advertises_line s r :: (sent_line <$> m_neighbors s).
Proof.
  rewrite Advertise_world. simpl. done.
Qed.

(** C4, as the specification states it, fails: when AS65001 advertises in
    the lambda of t=2, with one neighbor registered, the pending events are
    exactly those that were pending before the call. *)
Lemma Advertise_schedules_nothing :
  m_neighbors speakerA = [65002] ∧
  w_events (Advertise routeA speakerA
              (mkWorld (internet_Install noConnected) []
                 [(3, Lambda_t3); (10, Lambda_leak); (12, Lambda_dump)] 2)).2
    = [(3, Lambda_t3); (10, Lambda_leak); (12, Lambda_dump)] ∧
  ¬ AdvertiseSchedulesReceive.
Proof.
  split; [reflexivity|]. split; [reflexivity|].
  intros H.
  destruct (H routeA speakerA
              (mkWorld (internet_Install noConnected) []
                 [(3, Lambda_t3); (10, Lambda_leak); (12, Lambda_dump)] 2))
    as (new & Hlen & _ & Hperm).
  apply Permutation_length in Hperm.
  rewrite length_app, Hlen in Hperm. simpl in Hperm. lia.
Qed.

(** C4, amended: [Advertise(r)] on [s] writes, after the line naming the
    route, one "sent to" line for every entry of [s]'s neighbor list, in
    the order of the list; it schedules no event and leaves the clock
    where it is. *)
Theorem Advertise_logs_per_neighbor (r : BgpRoute) (s : BgpSpeaker) (w : World) :
  emitted w (Advertise r s w).2 = advertises_line s r :: (sent_line <$> m_neighbors s) ∧
  w_events (Advertise r s w).2 = w_events w ∧
  w_now (Advertise r s w).2 = w_now w.
Proof.
  split; [apply emitted_Advertise|]. by rewrite Advertise_world.
Qed.

(** C9: the neighbor list keeps duplicates. [AddNeighbor(a)] called twice
    appends [a] twice, and [Advertise] then writes as many "sent to" lines
    for [a] as the list holds occurrences of [a]: two more than before. *)
Theorem AddNeighbor_twice_emits_twice (r : BgpRoute) (s : BgpSpeaker) (a : N) (w : World) :
  m_neighbors (AddNeighbor a (AddNeighbor a s)) = m_neighbors s ++ [a; a] ∧
  emissionsTo a (emitted w (Advertise r (AddNeighbor a (AddNeighbor a s)) w).2) =
    length (filter (λ n, n = a) (m_neighbors (AddNeighbor a (AddNeighbor a s)))) ∧
  emissionsTo a (emitted w (Advertise r (AddNeighbor a (AddNeighbor a s)) w).2) =
    (emissionsTo a (emitted w (Advertise r s w).2) + 2)%nat ∧
  emissionsTo a (emitted w (Advertise r (AddNeighbor a (AddNeighbor a (BgpSpeaker_new (m_as s)))) w).2)
    = 2%nat.
Proof.
  split; [simpl; by rewrite <- app_assoc|].
  split; [apply emissionsTo_Advertise|].
  rewrite !emissionsTo_Advertise. simpl.
  rewrite <- app_assoc, !filter_app, !length_app. simpl.
  rewrite !filter_cons, !decide_True by done. simpl. split; lia.
Qed.

(** C10: [Advertise(r)] on [s] leaves the speaker (every field of it) and
    the route as they were, and of the world it changes the log only. Of
    the four member functions only [InstallRoute] can change a static
    routing table, and it does on a table that lacks the entry. *)
Theorem Advertise_preserves_state (d : bool) (r : BgpRoute) (s : BgpSpeaker) (w : World) :
  (Advertise r s w).1 = (s, r) ∧
  w_static (Advertise r s w).2 = w_static w ∧
  w_events (Advertise r s w).2 = w_events w ∧
  w_now (Advertise r s w).2 = w_now w ∧
  (∀ c s0 w0 s1 w1,
     call d c s0 w0 = Some (s1, w1) → w_static w1 ≠ w_static w0 →
     ∃ net msk, c = CInstallRoute net msk) ∧
  (∃ net msk s0 w0 s1 w1,
     call d (CInstallRoute net msk) s0 w0 = Some (s1, w1) ∧ w_static w1 ≠ w_static w0).
Proof.
  split; [reflexivity|]. rewrite Advertise_world. simpl.
  do 3 (split; [reflexivity|]). split.
  - intros c s0 w0 s1 w1 Hc Hne. destruct c as [n nh|a|r'|net msk]; cbn [call] in Hc.
    + destruct (Initialize n nh s0 w0); simpl in Hc; [|done].
      injection Hc as _ <-. done.
    + injection Hc as _ <-. done.
    + injection Hc as _ <-. contradict Hne. by rewrite foldl_log_static.
    + by exists net, msk.
  - exists (ipv4 10 1 0 0), (ipv4 255 255 0 0), speakerB,
      (mkWorld (internet_Install noConnected) [] [] 0). eexists _, _.
    split; [apply (InstallRoute_Some d _ _ _ _ 3%nat []); reflexivity|].
    simpl. intros Heq.
    assert (Hl : (<[3%nat := AddNetworkRouteTo d (ipv4 10 1 0 0) (ipv4 255 255 0 0)
                               (m_nextHop speakerB) 1 0 []]>
                    (internet_Install noConnected)) !! 3%nat
                 = internet_Install noConnected !! 3%nat)
      by exact (f_equal (λ m, m !! 3%nat) Heq).
    rewrite lookup_insert_eq in Hl. destruct d; vm_compute in Hl; discriminate.
Qed.

(** ** Taking routes in: claims C5 and C6 *)

(** C5, as the specification states it, fails. The program has no
    [Receive]; a speaker takes a neighbor's route in by
    [InstallRoute(r.prefix, r.mask)], which never sees the path: AS65002
    taking in 10.1.0.0/16 with the path [65001; 65002], which holds its own
    number, gets the route into its empty table all the same. *)
Lemma looping_route_is_installed :
  (m_as speakerB ∈ asPath (mkRoute (ipv4 10 1 0 0) (ipv4 255 255 0 0) [65001; 65002])) ∧
  w_static (mkWorld (internet_Install noConnected) [] [] 0) !! 3%nat = Some [] ∧
  (λ sw, w_static sw.2 !! 3%nat) <$>
    InstallRoute false (prefix (mkRoute (ipv4 10 1 0 0) (ipv4 255 255 0 0) [65001; 65002]))
      (mask (mkRoute (ipv4 10 1 0 0) (ipv4 255 255 0 0) [65001; 65002]))
      speakerB (mkWorld (internet_Install noConnected) [] [] 0)
    = Some (Some [(mkEntry (ipv4 10 1 0 0) (ipv4 255 255 0 0) (ipv4 10 2 1 2) 1, 0)]) ∧
  (λ sw, w_static sw.2 !! 3%nat) <$>
    InstallRoute true (prefix (mkRoute (ipv4 10 1 0 0) (ipv4 255 255 0 0) [65001; 65002]))
      (mask (mkRoute (ipv4 10 1 0 0) (ipv4 255 255 0 0) [65001; 65002]))
      speakerB (mkWorld (internet_Install noConnected) [] [] 0)
    = Some (Some [(mkEntry (ipv4 10 1 0 0) (ipv4 255 255 0 0) (ipv4 10 2 1 2) 1, 0)]) ∧
  ¬ LoopPrevention false ∧ ¬ LoopPrevention true.
Proof.
  split; [apply list_elem_of_lookup; by exists 1%nat|].
  do 3 (split; [vm_compute; reflexivity|]).
  assert (H : ∀ d, ¬ LoopPrevention d).
  { intros d H.
    pose (r := mkRoute (ipv4 10 1 0 0) (ipv4 255 255 0 0) [65001; 65002]).
    pose (w := mkWorld (internet_Install noConnected) [] [] 0).
    assert (Hin : m_as speakerB ∈ asPath r)
      by (apply list_elem_of_lookup; by exists 1%nat).
    specialize (H speakerB r w _ _ Hin
                  (InstallRoute_Some d _ _ speakerB w 3%nat [] eq_refl eq_refl)).
    apply (f_equal (λ m, m !! 3%nat)) in H. simpl in H.
    rewrite lookup_insert_eq in H. destruct d; vm_compute in H; discriminate. }
  split; apply H.
Qed.

(** C5, amended: [InstallRoute(r.prefix, r.mask)] on an initialised speaker
    does the same for any two routes of one prefix and mask, whatever
    their paths hold, the speaker's own AS number included: it succeeds,
    the entry with the speaker's next hop is in the table afterwards, and
    nothing is logged or scheduled (no re-advertisement). *)
Theorem InstallRoute_ignores_path (d : bool) (s : BgpSpeaker) (r r' : BgpRoute)
    (w : World) (ip : nat) (t : list (Ipv4RoutingTableEntry * N)) :
  m_ipv4 s = Some ip → w_static w !! ip = Some t →
  prefix r' = prefix r → mask r' = mask r →
  ∃ w',
    InstallRoute d (prefix r) (mask r) s w = Some (s, w') ∧
    InstallRoute d (prefix r') (mask r') s w = Some (s, w') ∧
    (installed s (prefix r) (mask r), 0) ∈ default [] (w_static w' !! ip) ∧
    w_log w' = w_log w ∧ w_events w' = w_events w ∧ w_now w' = w_now w.
Proof.
  intros Hip Ht -> ->. eexists. split; [by apply (InstallRoute_Some d _ _ s w ip t)|].
  split; [by apply (InstallRoute_Some d _ _ s w ip t)|].
  simpl. rewrite lookup_insert_eq. simpl.
  split; [apply AddNetworkRouteTo_installs | done].
Qed.

Lemma InstallRoute_ignores_path_witness :
  ∃ w',
    InstallRoute true (ipv4 10 1 0 0) (ipv4 255 255 0 0) speakerB
      (mkWorld (internet_Install noConnected) [] [] 0) = Some (speakerB, w') ∧
    InstallRoute true (ipv4 10 1 0 0) (ipv4 255 255 0 0) speakerB
      (mkWorld (internet_Install noConnected) [] [] 0) = Some (speakerB, w').
Proof.
  destruct (InstallRoute_ignores_path true speakerB routeA
              (mkRoute (ipv4 10 1 0 0) (ipv4 255 255 0 0) [65001; 65002])
              (mkWorld (internet_Install noConnected) [] [] 0) 3%nat [])
    as (w' & H1 & H2 & _); [reflexivity..|].
  exists w'. split; [exact H1 | exact H2].
Defined.

(** C6, as the specification states it, fails for every possible [Select]:
    the table AS65002 has after taking in the route with path [65001] is
    the table it has after taking in the one with path [65003; 65001]
    instead, so no function of the table returns in each case the route
    that was taken in. *)
Lemma no_selection_by_path :
  routeA ≠ mkRoute (ipv4 10 1 0 0) (ipv4 255 255 0 0) [65003; 65001] ∧
  installAll false [routeA] speakerB (mkWorld (internet_Install noConnected) [] [] 0)
    = installAll false [mkRoute (ipv4 10 1 0 0) (ipv4 255 255 0 0) [65003; 65001]]
        speakerB (mkWorld (internet_Install noConnected) [] [] 0) ∧
  installAll true [routeA] speakerB (mkWorld (internet_Install noConnected) [] [] 0)
    = installAll true [mkRoute (ipv4 10 1 0 0) (ipv4 255 255 0 0) [65003; 65001]]
        speakerB (mkWorld (internet_Install noConnected) [] [] 0) ∧
  ¬ (∃ Select, SelectsShortest false Select) ∧
  ¬ (∃ Select, SelectsShortest true Select).
Proof.
  split; [discriminate|]. split; [reflexivity|]. split; [reflexivity|].
  assert (H : ∀ d, ¬ ∃ Select, SelectsShortest d Select).
  { intros d [Select H].
    pose (long := mkRoute (ipv4 10 1 0 0) (ipv4 255 255 0 0) [65003; 65001]).
    pose (w := mkWorld (internet_Install noConnected) [] [] 0).
    assert (Hrun : ∀ r, prefix r = ipv4 10 1 0 0 → mask r = ipv4 255 255 0 0 →
              installAll d [r] speakerB w =
              Some (speakerB, set_static 3 (AddNetworkRouteTo d (ipv4 10 1 0 0)
                       (ipv4 255 255 0 0) (ipv4 10 2 1 2) 1 0 []) w)).
    { intros r Hp Hm. simpl. rewrite Hp, Hm.
      by rewrite (InstallRoute_Some d _ _ speakerB w 3%nat []). }
    edestruct (H speakerB w 3%nat [routeA] (ipv4 10 1 0 0) (ipv4 255 255 0 0))
      as (b1 & Hs1 & Hb1 & _);
      [reflexivity | reflexivity | done | by intros r ->%list_elem_of_singleton
      | by apply Hrun |].
    edestruct (H speakerB w 3%nat [long] (ipv4 10 1 0 0) (ipv4 255 255 0 0))
      as (b2 & Hs2 & Hb2 & _);
      [reflexivity | reflexivity | done | by intros r ->%list_elem_of_singleton
      | by apply Hrun |].
    apply list_elem_of_singleton in Hb1, Hb2. subst b1 b2.
    rewrite Hs1 in Hs2. discriminate. }
  split; apply H.
Qed.

(** C6, amended: when an initialised speaker takes in any routes of one
    prefix and mask, every [InstallRoute] succeeds and the table gains at
    most the one entry with the speaker's next hop on interface 1; any
    other routes of that prefix and mask, as many of them, give the very
    same result, so neither path length nor any next-hop identifier of a
    route plays a part. *)
Theorem installAll_ignores_paths (d : bool) (s : BgpSpeaker) (w : World) (ip : nat)
    (t : list (Ipv4RoutingTableEntry * N)) (rs : list BgpRoute)
    (net : Ipv4Address) (msk : Ipv4Mask) :
  m_ipv4 s = Some ip → w_static w !! ip = Some t →
  (∀ r, r ∈ rs → prefix r = net ∧ mask r = msk) →
  ∃ w',
    installAll d rs s w = Some (s, w') ∧
    (∀ x, x ∈ default [] (w_static w' !! ip) ↔
          x ∈ t ∨ (rs ≠ [] ∧ x = (installed s net msk, 0))) ∧
    (∀ rs', length rs' = length rs →
            (∀ r, r ∈ rs' → prefix r = net ∧ mask r = msk) →
            installAll d rs' s w = Some (s, w')).
Proof.
  intros Hip. revert w t. induction rs as [|r rs IH]; intros w t Ht Hrs.
  - exists w. split; [done|]. split.
    + rewrite Ht. simpl. intros x. split; [auto | by intros [?|[? _]]].
    + intros [|??]; [done | discriminate].
  - destruct (Hrs r) as [Hp Hm]; [by left|].
    pose (w1 := set_static ip (AddNetworkRouteTo d net msk (m_nextHop s) 1 0 t) w).
    destruct (IH w1 (AddNetworkRouteTo d net msk (m_nextHop s) 1 0 t))
      as (w' & Hrun & Htab & Hother).
    { simpl. apply lookup_insert_eq. }
    { intros r0 Hr0. apply Hrs. by right. }
    exists w'. split; [|split].
    + simpl. rewrite Hp, Hm, (InstallRoute_Some d net msk s w ip t) by done.
      exact Hrun.
    + intros x. rewrite Htab, elem_of_AddNetworkRouteTo. unfold installed.
      split; [intros [[?|?]|[_ ?]]; auto | intros [?|[_ ?]]; auto].
    + intros [|r' rs'] Hlen Hrs'; [discriminate|].
      destruct (Hrs' r') as [Hp' Hm']; [by left|].
      simpl. rewrite Hp', Hm', (InstallRoute_Some d net msk s w ip t) by done.
      apply Hother; [by injection Hlen | intros r0 Hr0; apply Hrs'; by right].
Qed.

Lemma installAll_ignores_paths_witness :
  ∃ w',
    installAll true [routeA; mkRoute (ipv4 10 1 0 0) (ipv4 255 255 0 0) [65003; 65001]]
      speakerB (mkWorld (internet_Install noConnected) [] [] 0) = Some (speakerB, w').
Proof.
  destruct (installAll_ignores_paths true speakerB
              (mkWorld (internet_Install noConnected) [] [] 0) 3%nat []
              [routeA; mkRoute (ipv4 10 1 0 0) (ipv4 255 255 0 0) [65003; 65001]]
              (ipv4 10 1 0 0) (ipv4 255 255 0 0))
    as (w' & H & _).
  - reflexivity.
  - reflexivity.
  - intros r Hr. apply elem_of_cons in Hr as [-> | Hr]; [done|].
    apply list_elem_of_singleton in Hr as ->. done.
  - exists w'. exact H.
Defined.

(** ** Nothing is ever withdrawn

    [BgpSpeaker] has no member that removes a route, and [main] never
    removes one: whatever member function is called, every entry of every
    static routing table is still there afterwards. *)
Lemma call_keeps_entries d c s w s' w' n t x :
  call d c s w = Some (s', w') →
  w_static w !! n = Some t → x ∈ t →
  ∃ t', w_static w' !! n = Some t' ∧ x ∈ t'.
Proof.
  intros Hc Ht Hx. destruct c as [n0 nh|a|r|net msk]; cbn [call] in Hc.
  - destruct (Initialize n0 nh s w); simpl in Hc; [|done].
    injection Hc as _ <-. eauto.
  - injection Hc as _ <-. eauto.
  - injection Hc as _ <-. rewrite foldl_log_static. simpl. eauto.
  - unfold InstallRoute, GetStaticRouting in Hc.
    destruct (m_ipv4 s) as [ip|]; simpl in Hc; [|done].
    destruct (w_static w !! ip) as [t0|] eqn:Hip; simpl in Hc; [|done].
    injection Hc as _ <-. simpl.
    destruct (decide (ip = n)) as [->|Hne].
    + rewrite lookup_insert_eq. eexists. split; [done|].
      apply elem_of_AddNetworkRouteTo. left. congruence.
    + rewrite lookup_insert_ne by done. eauto.
Qed.

(** ** The packet classifier *)

Ltac split_tests :=
  repeat match goal with
  | |- context [N.eqb ?a ?b] => destruct (N.eqb_spec a b)
  | |- context [N.leb ?a ?b] => destruct (N.leb_spec a b)
  end.

(** X1: the classes of [ClassifyPacket] as a table. Class 1 is exactly UDP
    with a header read and destination port 5000..5010, class 2 exactly
    UDP with a header read and port 6000..6010, class 3 exactly TCP with a
    header read and port 80 or 443, and everything else, a header that
    could not be read included, is class 0; no other class exists. *)
Theorem ClassifyPacket_table (Packet : Type) (udp tcp : Packet → N * N)
    (packet : Packet) (h : Ipv4Header) :
  (ClassifyPacket Packet udp tcp packet h = 1 ↔
     GetProtocol h = 17 ∧ (udp packet).1 ≠ 0 ∧ 5000 ≤ (udp packet).2 ≤ 5010) ∧
  (ClassifyPacket Packet udp tcp packet h = 2 ↔
     GetProtocol h = 17 ∧ (udp packet).1 ≠ 0 ∧ 6000 ≤ (udp packet).2 ≤ 6010) ∧
  (ClassifyPacket Packet udp tcp packet h = 3 ↔
     GetProtocol h = 6 ∧ (tcp packet).1 ≠ 0 ∧ ((tcp packet).2 = 80 ∨ (tcp packet).2 = 443)) ∧
  (ClassifyPacket Packet udp tcp packet h = 0 ∨ ClassifyPacket Packet udp tcp packet h = 1 ∨
   ClassifyPacket Packet udp tcp packet h = 2 ∨ ClassifyPacket Packet udp tcp packet h = 3).
Proof.
  unfold ClassifyPacket.
  destruct (udp packet) as [un up], (tcp packet) as [tn tp]. simpl.
  split_tests; simpl; repeat split; intros; try lia; intuition lia.
Qed.

(** ** The eavesdropping callback *)

Lemma div50_succ (c : N) :
  (c + 1) / 50 = c / 50 + (if (c + 1) mod 50 =? 0 then 1 else 0).
Proof.
  destruct (N.eqb_spec ((c + 1) mod 50) 0) as [Hz|Hnz];
    zify; Z.to_euclidean_division_equations; lia.
Qed.

Lemma PromiscEavesdrop_step show now g :
  packetsCaptured g + 1 < 2 ^ 64 →
  packetsCaptured (PromiscEavesdrop show now g).2 = packetsCaptured g + 1 ∧
  N.of_nat (length (ids_cout (PromiscEavesdrop show now g).2)) =
    N.of_nat (length (ids_cout g)) + (if (packetsCaptured g + 1) mod 50 =? 0 then 1 else 0) ∧
  ddosThreshold (PromiscEavesdrop show now g).2 = ddosThreshold g.
Proof.
  intros Hlt. unfold PromiscEavesdrop. cbn [snd packetsCaptured ids_cout ddosThreshold].
  rewrite (N.mod_small (packetsCaptured g + 1)) by done.
  split; [done|]. split; [|done].
  destruct (_ =? 0); [|lia]. rewrite length_app. simpl. lia.
Qed.

Lemma eavesdropAll_cons show t ts g :
  eavesdropAll show (t :: ts) g = eavesdropAll show ts (PromiscEavesdrop show t g).2.
Proof. reflexivity. Qed.

Lemma eavesdropAll_spec show times g :
  packetsCaptured g + N.of_nat (length times) < 2 ^ 64 →
  packetsCaptured (eavesdropAll show times g) = packetsCaptured g + N.of_nat (length times) ∧
  N.of_nat (length (ids_cout (eavesdropAll show times g))) + packetsCaptured g / 50 =
    N.of_nat (length (ids_cout g)) + (packetsCaptured g + N.of_nat (length times)) / 50 ∧
  ddosThreshold (eavesdropAll show times g) = ddosThreshold g.
Proof.
  revert g. induction times as [|t ts IH]; intros g Hlt.
  - simpl. rewrite N.add_0_r. done.
  - rewrite length_cons, Nat2N.inj_succ in Hlt.
    destruct (PromiscEavesdrop_step show t g) as (Hc1 & Ho1 & Ht1); [lia|].
    rewrite eavesdropAll_cons.
    destruct (IH (PromiscEavesdrop show t g).2) as (Hcap & Hout & Hthr).
    { rewrite Hc1. lia. }
    rewrite Hc1 in Hcap, Hout. rewrite Hcap, Hthr, Ht1.
    rewrite length_cons, Nat2N.inj_succ.
    replace (packetsCaptured g + N.succ (N.of_nat (length ts)))
      with (packetsCaptured g + 1 + N.of_nat (length ts)) by lia.
    split; [done|]. split; [|done].
    pose proof (div50_succ (packetsCaptured g)) as Hdiv.
    destruct ((packetsCaptured g + 1) mod 50 =? 0); lia.
Qed.

(** X2: the eavesdropping callback counts and reports, and that is all.
    After any number of packets that keeps the 64-bit counter from
    wrapping, [packetsCaptured] has grown by the number of packets, one line
    has been printed for every multiple of 50 the counter has passed, the
    threshold [ddosThreshold] is what it was, and every call has returned
    [true], whatever the rate: nothing is compared with the threshold. *)
Theorem PromiscEavesdrop_counts (show : Z → string) (times : list Z) (g : IdsGlobals) :
  packetsCaptured g + N.of_nat (length times) < 2 ^ 64 →
  packetsCaptured (eavesdropAll show times g) = packetsCaptured g + N.of_nat (length times) ∧
  N.of_nat (length (ids_cout (eavesdropAll show times g))) =
    N.of_nat (length (ids_cout g))
    + (packetsCaptured g + N.of_nat (length times)) / 50 - packetsCaptured g / 50 ∧
  ddosThreshold (eavesdropAll show times g) = ddosThreshold g ∧
  (∀ now g0, (PromiscEavesdrop show now g0).1 = true) ∧
  (∃ lines, ids_cout (eavesdropAll show times g) = ids_cout g ++ lines).
Proof.
  intros Hlt. destruct (eavesdropAll_spec show times g Hlt) as (Hc & Ho & Ht).
  split; [done|]. split; [lia|]. split; [done|]. split; [done|].
  clear. revert g. induction times as [|t ts IH]; intros g.
  - exists []. by rewrite app_nil_r.
  - destruct (IH (PromiscEavesdrop show t g).2) as [l Hl].
    change (eavesdropAll show (t :: ts) g)
      with (eavesdropAll show ts (PromiscEavesdrop show t g).2).
    rewrite Hl. simpl. destruct (_ =? 0); [|by eexists].
    rewrite <- app_assoc. by eexists.
Qed.

Lemma PromiscEavesdrop_counts_witness :
  packetsCaptured (eavesdropAll (λ _, "5"%string) (replicate 120 5%Z) ids_initial) = 120 ∧
  length (ids_cout (eavesdropAll (λ _, "5"%string) (replicate 120 5%Z) ids_initial)) = 2%nat.
Proof.
  destruct (PromiscEavesdrop_counts (λ _, "5"%string) (replicate 120 5%Z) ids_initial)
    as (Hc & Ho & _).
  - vm_compute. reflexivity.
  - split; [exact Hc|].
    apply Nat2N.inj. rewrite Ho. vm_compute. reflexivity.
Defined.

(** ** Attacker subnets *)

Lemma string_length_app (s t : string) :
  String.length (s +:+ t) = (String.length s + String.length t)%nat.
Proof. induction s as [|a s IH]; simpl; [done | by rewrite IH]. Qed.

Lemma string_app_inj_r (s1 s2 t : string) : s1 +:+ t = s2 +:+ t → s1 = s2.
Proof.
  revert s2. induction s1 as [|a s1 IH]; intros [|b s2] H; simpl in H.
  - done.
  - apply (f_equal String.length) in H.
    rewrite !string_length_app in H. simpl in H. lia.
  - apply (f_equal String.length) in H.
    rewrite !string_length_app in H. simpl in H. lia.
  - injection H as -> H. f_equal. by apply IH.
Qed.

(** X3: the subnets the DDoS exercise builds for its attackers are
    pairwise different and none is the victim's 10.0.0.0: for loop
    indices below 2^32 - 1 (all that the loop can reach), equal subnet
    strings mean equal indices. *)
Theorem attackerSubnet_distinct (i j : N) :
  i < 2 ^ 32 - 1 → j < 2 ^ 32 - 1 →
  (attackerSubnet i = attackerSubnet j ↔ i = j) ∧
  attackerSubnet i ≠ "10.0.0.0"%string.
Proof.
  intros Hi Hj.
  assert (Hmod : ∀ k, k < 2 ^ 32 - 1 → (k + 1) mod 2 ^ 32 = k + 1).
  { intros k Hk. apply N.mod_small.
    change (2 ^ 32) with 4294967296 in *. lia. }
  unfold attackerSubnet. rewrite (Hmod i Hi), (Hmod j Hj). split.
  - split; [|by intros ->].
    intros H. apply (inj (String.append "10.0.")) in H.
    apply string_app_inj_r, (inj pretty) in H. lia.
  - intros H. apply (inj (String.append "10.0.")) in H.
    change "0.0"%string with (pretty 0 +:+ ".0")%string in H.
    apply string_app_inj_r, (inj pretty) in H. lia.
Qed.

Lemma attackerSubnet_distinct_witness :
  (attackerSubnet 0 = attackerSubnet 2 ↔ 0 = 2) ∧
  attackerSubnet 0 = "10.0.1.0"%string ∧ attackerSubnet 2 = "10.0.3.0"%string.
Proof.
  split; [|split; reflexivity].
  apply (attackerSubnet_distinct 0 2); reflexivity.
Defined.

(** ** The transmission tracker *)

Section TrackFacts.

Variable show : Z → string.
Variable tenth : Z.

Lemma trackAll_cons t ts g :
  trackAll show tenth (t :: ts) g =
  trackAll show tenth ts (TrackPacketTransmission show tenth t g).
Proof. reflexivity. Qed.

Lemma Track_failureTime t g :
  primaryLinkFailureTime (TrackPacketTransmission show tenth t g)
  = primaryLinkFailureTime g.
Proof.
  unfold TrackPacketTransmission.
  repeat (case_match; simpl); done.
Qed.

Lemma trackAll_failureTime ts g :
  primaryLinkFailureTime (trackAll show tenth ts g) = primaryLinkFailureTime g.
Proof.
  revert g. induction ts as [|t ts IH]; intros g; [done|].
  by rewrite trackAll_cons, IH, Track_failureTime.
Qed.

(** One call, by cases. *)
Lemma Track_cases t g :
  let g' := TrackPacketTransmission show tenth t g in
  let F := primaryLinkFailureTime g in
  ((t < F)%Z →
     packetsBeforeFailure g' = (packetsBeforeFailure g + 1) mod 2 ^ 32 ∧
     packetsAfterFailure g' = packetsAfterFailure g ∧
     primaryLinkFailed g' = primaryLinkFailed g ∧ ft_cout g' = ft_cout g) ∧
  ((F ≤ t)%Z →
     packetsBeforeFailure g' = packetsBeforeFailure g ∧
     packetsAfterFailure g' = (packetsAfterFailure g + 1) mod 2 ^ 32) ∧
  (primaryLinkFailed g = true →
     primaryLinkFailed g' = true ∧ ft_cout g' = ft_cout g) ∧
  (primaryLinkFailed g = false → ¬ triggers tenth F t →
     primaryLinkFailed g' = false ∧ ft_cout g' = ft_cout g) ∧
  (primaryLinkFailed g = false → triggers tenth F t →
     primaryLinkFailed g' = true ∧
     ft_cout g' = ft_cout g ++ failure_report show t (packetsBeforeFailure g)).
Proof.
  unfold triggers, TrackPacketTransmission. simpl.
  destruct (Z.ltb_spec t (primaryLinkFailureTime g));
    destruct (Z.leb_spec (primaryLinkFailureTime g) t);
    destruct (Z.leb_spec (primaryLinkFailureTime g + tenth) t);
    destruct (primaryLinkFailed g); simpl;
    repeat split; intros; try done; try lia; intuition lia.
Qed.

(** Once the failure is latched, nothing is printed any more. *)
Lemma trackAll_latched ts g :
  primaryLinkFailed g = true →
  primaryLinkFailed (trackAll show tenth ts g) = true ∧
  ft_cout (trackAll show tenth ts g) = ft_cout g.
Proof.
  revert g. induction ts as [|t ts IH]; intros g Hf; [done|].
  rewrite trackAll_cons.
  destruct (Track_cases t g) as (_ & _ & Hl & _). destruct (Hl Hf) as [Hf' Hc'].
  destruct (IH _ Hf') as [-> ->]. done.
Qed.

(** After the failure time, the count of earlier packets stands. *)
Lemma trackAll_before_stable ts g :
  Forall (λ t, (primaryLinkFailureTime g ≤ t)%Z) ts →
  packetsBeforeFailure (trackAll show tenth ts g) = packetsBeforeFailure g.
Proof.
  revert g. induction ts as [|t ts IH]; intros g Hall; [done|].
  apply Forall_cons in Hall as [Ht Hall].
  rewrite trackAll_cons, IH by (by rewrite Track_failureTime).
  destruct (Track_cases t g) as (_ & Hge & _). by destruct (Hge Ht).
Qed.

End TrackFacts.

Lemma trackAll_counts_from show tenth ts g :
  packetsBeforeFailure g < 2 ^ 32 → packetsAfterFailure g < 2 ^ 32 →
  packetsBeforeFailure (trackAll show tenth ts g) =
    (packetsBeforeFailure g
     + N.of_nat (length (filter (λ t, (t < primaryLinkFailureTime g)%Z) ts))) mod 2 ^ 32 ∧
  packetsAfterFailure (trackAll show tenth ts g) =
    (packetsAfterFailure g
     + N.of_nat (length (filter (λ t, (primaryLinkFailureTime g ≤ t)%Z) ts))) mod 2 ^ 32.
Proof.
  revert g. induction ts as [|t ts IH]; intros g Hb Ha.
  - simpl. rewrite !N.add_0_r, !N.mod_small by done. done.
  - rewrite trackAll_cons.
    pose proof (Track_failureTime show tenth t g) as HF.
    destruct (Track_cases show tenth t g) as (Hlt & Hge & _).
    rewrite !filter_cons.
    destruct (decide (t < primaryLinkFailureTime g)%Z) as [Hcmp|Hcmp].
    + destruct (Hlt Hcmp) as (Hb1 & Ha1 & _).
      rewrite decide_False by lia.
      destruct (IH (TrackPacketTransmission show tenth t g)) as [-> ->].
      { rewrite Hb1. by apply N.mod_lt. }
      { by rewrite Ha1. }
      rewrite HF, Hb1, Ha1, N.Div0.add_mod_idemp_l.
      split; [f_equal; simpl; lia | done].
    + assert (Hcmp' : (primaryLinkFailureTime g ≤ t)%Z) by lia.
      destruct (Hge Hcmp') as (Hb1 & Ha1).
      rewrite decide_True by done.
      destruct (IH (TrackPacketTransmission show tenth t g)) as [-> ->].
      { by rewrite Hb1. }
      { rewrite Ha1. by apply N.mod_lt. }
      rewrite HF, Hb1, Ha1, N.Div0.add_mod_idemp_l.
      split; [done | f_equal; simpl; lia].
Qed.

(** X4: the tracker files every packet under exactly one of its two
    counters. Started from the file's initial globals and fired at any
    times, [packetsBeforeFailure] is the number of packets timed before
    the failure time and [packetsAfterFailure] the number timed at or after
    it (both as 32-bit counters), the two groups make up all packets, and
    the failure time is never changed. *)
Theorem TrackPacketTransmission_counts (show : Z → string) (tenth F : Z) (ts : list Z) :
  packetsBeforeFailure (trackAll show tenth ts (ft_initial F)) =
    N.of_nat (length (filter (λ t, (t < F)%Z) ts)) mod 2 ^ 32 ∧
  packetsAfterFailure (trackAll show tenth ts (ft_initial F)) =
    N.of_nat (length (filter (λ t, (F ≤ t)%Z) ts)) mod 2 ^ 32 ∧
  (length (filter (λ t, (t < F)%Z) ts) + length (filter (λ t, (F ≤ t)%Z) ts)
   = length ts)%nat ∧
  primaryLinkFailureTime (trackAll show tenth ts (ft_initial F)) = F.
Proof.
  destruct (trackAll_counts_from show tenth ts (ft_initial F)) as [Hb Ha]; [done..|].
  simpl in Hb, Ha. rewrite Hb, Ha, !N.add_0_l.
  split; [done|]. split; [done|]. split; [|apply trackAll_failureTime].
  clear Hb Ha. induction ts as [|t ts IH]; [done|].
  rewrite !filter_cons.
  destruct (decide (t < F)%Z).
  - rewrite decide_False by lia. simpl. lia.
  - rewrite decide_True by lia. simpl. lia.
Qed.

(** X5: the failure report is latched. Over any sequence of packets: once
    [primaryLinkFailed] is set nothing more is ever printed; while it is
    not set, nothing is printed if no packet is timed at or after both the
    failure time and the failure time plus [Seconds(0.1)], and otherwise
    exactly one three-line report is printed, for one of those packets,
    and the flag is set. *)
Theorem failure_reported_once (show : Z → string) (tenth : Z) (ts : list Z) (g : FtGlobals) :
  (primaryLinkFailed g = true →
     primaryLinkFailed (trackAll show tenth ts g) = true ∧
     ft_cout (trackAll show tenth ts g) = ft_cout g) ∧
  (primaryLinkFailed g = false →
     ¬ Exists (triggers tenth (primaryLinkFailureTime g)) ts →
     primaryLinkFailed (trackAll show tenth ts g) = false ∧
     ft_cout (trackAll show tenth ts g) = ft_cout g) ∧
  (primaryLinkFailed g = false →
     Exists (triggers tenth (primaryLinkFailureTime g)) ts →
     primaryLinkFailed (trackAll show tenth ts g) = true ∧
     ∃ t before, t ∈ ts ∧ triggers tenth (primaryLinkFailureTime g) t ∧
       ft_cout (trackAll show tenth ts g) = ft_cout g ++ failure_report show t before).
Proof.
  split; [apply trackAll_latched|].
  revert g. induction ts as [|t ts IH]; intros g.
  - split; [done|]. intros _ H. by apply Exists_nil in H.
  - rewrite trackAll_cons.
    pose proof (Track_failureTime show tenth t g) as HF.
    destruct (Track_cases show tenth t g) as (_ & _ & _ & Hno & Hyes).
    destruct (IH (TrackPacketTransmission show tenth t g)) as [IHno IHyes].
    rewrite HF in IHno, IHyes.
    split; intros Hf Hex.
    + rewrite Exists_cons in Hex.
      destruct (Hno Hf) as [Hf' Hc']; [tauto|].
      destruct IHno as [-> ->]; [done | tauto |]. done.
    + assert (triggers tenth (primaryLinkFailureTime g) t ∨
              ¬ triggers tenth (primaryLinkFailureTime g) t) as [Ht|Ht]
        by (unfold triggers; lia).
      * destruct (Hyes Hf Ht) as [Hf' Hc'].
        destruct (trackAll_latched show tenth ts _ Hf') as [-> ->].
        split; [done|]. exists t, (packetsBeforeFailure g).
        split; [by left|]. done.
      * destruct (Hno Hf Ht) as [Hf' Hc'].
        apply Exists_cons in Hex as [Hex|Hex]; [done|].
        destruct (IHyes Hf' Hex) as (-> & t' & b & Hin & Htr & ->).
        split; [done|]. exists t', b. rewrite Hc'. split; [by right|]. done.
Qed.

Lemma failure_report_from show tenth ts g :
  (0 ≤ tenth)%Z → StronglySorted Z.le ts →
  primaryLinkFailed g = false →
  Exists (λ t, (primaryLinkFailureTime g + tenth ≤ t)%Z) ts →
  primaryLinkFailed (trackAll show tenth ts g) = true ∧
  ∃ t, t ∈ ts ∧ (primaryLinkFailureTime g + tenth ≤ t)%Z ∧
    ft_cout (trackAll show tenth ts g) =
    ft_cout g ++ failure_report show t (packetsBeforeFailure (trackAll show tenth ts g)).
Proof.
  intros Htenth. revert g. induction ts as [|t ts IH]; intros g Hsorted Hf Hex.
  - by apply Exists_nil in Hex.
  - apply StronglySorted_inv in Hsorted as [Hsorted Hle].
    rewrite trackAll_cons.
    pose proof (Track_failureTime show tenth t g) as HF.
    destruct (Track_cases show tenth t g) as (_ & Hge & _ & Hno & Hyes).
    destruct (decide (primaryLinkFailureTime g + tenth ≤ t)%Z) as [Ht|Ht].
    + assert (Htr : triggers tenth (primaryLinkFailureTime g) t)
        by (unfold triggers; lia).
      destruct (Hyes Hf Htr) as [Hf' Hc'].
      destruct (trackAll_latched show tenth ts _ Hf') as [-> ->].
      split; [done|]. exists t. split; [by left|]. split; [done|].
      rewrite trackAll_before_stable.
      * destruct Hge as [-> _]; [unfold triggers in Htr; lia|]. done.
      * rewrite HF. eapply Forall_impl; [exact Hle|].
        intros t' Ht'. unfold triggers in Htr. simpl in Ht'. lia.
    + assert (Htr : ¬ triggers tenth (primaryLinkFailureTime g) t)
        by (unfold triggers; lia).
      destruct (Hno Hf Htr) as [Hf' Hc'].
      apply Exists_cons in Hex as [Hex|Hex]; [done|].
      destruct (IH (TrackPacketTransmission show tenth t g) Hsorted Hf')
        as (-> & t' & Hin & Hge' & ->).
      { by rewrite HF. }
      split; [done|]. exists t'. rewrite HF in Hge'. rewrite Hc'.
      split; [by right|]. done.
Qed.

(** X6: with packets in time order and a non-negative [Seconds(0.1)], the
    number the report prints as "Packets before failure" is the final value
    of [packetsBeforeFailure]: started from the file's initial globals, if
    some packet is timed at or after the failure time plus [Seconds(0.1)],
    the output is exactly the one report for such a packet, and the count
    in it is the count the tracker ends with. *)
Theorem failure_report_is_final (show : Z → string) (tenth F : Z) (ts : list Z) :
  (0 ≤ tenth)%Z → StronglySorted Z.le ts →
  Exists (λ t, (F + tenth ≤ t)%Z) ts →
  primaryLinkFailed (trackAll show tenth ts (ft_initial F)) = true ∧
  ∃ t, t ∈ ts ∧ (F + tenth ≤ t)%Z ∧
    ft_cout (trackAll show tenth ts (ft_initial F)) =
    failure_report show t (packetsBeforeFailure (trackAll show tenth ts (ft_initial F))).
Proof.
  intros Htenth Hsorted Hex.
  by apply (failure_report_from show tenth ts (ft_initial F)).
Qed.

Lemma failure_report_is_final_witness :
  ∃ t,
    ft_cout (trackAll (λ _, "5.2"%string) 100000000
               [2000000000; 4000000000; 5050000000; 5200000000; 6000000000]%Z
               (ft_initial 5000000000)) =
    failure_report (λ _, "5.2"%string) t 2.
Proof.
  destruct (failure_report_is_final (λ _, "5.2"%string) 100000000 5000000000
              [2000000000; 4000000000; 5050000000; 5200000000; 6000000000]%Z)
    as (_ & t & _ & _ & H).
  - lia.
  - repeat constructor; lia.
  - do 3 apply Exists_cons_tl. apply Exists_cons_hd. lia.
  - exists t. exact H.
Defined.

(** ** More on the speakers *)

Lemma InstallRoute_inv d net msk s w s' w' :
  InstallRoute d net msk s w = Some (s', w') →
  ∃ ip t, m_ipv4 s = Some ip ∧ w_static w !! ip = Some t ∧ s' = s ∧
          w' = set_static ip (AddNetworkRouteTo d net msk (m_nextHop s) 1 0 t) w.
Proof.
  unfold InstallRoute, GetStaticRouting. intros H.
  destruct (m_ipv4 s) as [ip|]; simpl in H; [|done].
  destruct (w_static w !! ip) as [t|] eqn:Ht; simpl in H; [|done].
  injection H as <- <-. by exists ip, t.
Qed.

(** X7: [InstallRoute] on one speaker reaches the static routing table of
    that speaker's node and nothing else, so installs by speakers on
    different nodes do not interfere: each leaves the other node's table
    (and every third one) as it was, and the two calls give the same world
    in either order. *)
Theorem InstallRoute_frame_commute (d : bool) (s1 s2 : BgpSpeaker) (ip1 ip2 : nat)
    (t1 t2 : list (Ipv4RoutingTableEntry * N))
    (net1 net2 : Ipv4Address) (msk1 msk2 : Ipv4Mask) (w : World) :
  m_ipv4 s1 = Some ip1 → m_ipv4 s2 = Some ip2 → ip1 ≠ ip2 →
  w_static w !! ip1 = Some t1 → w_static w !! ip2 = Some t2 →
  ∃ w1 w2 w12,
    InstallRoute d net1 msk1 s1 w = Some (s1, w1) ∧
    InstallRoute d net2 msk2 s2 w = Some (s2, w2) ∧
    (∀ n, n ≠ ip1 → w_static w1 !! n = w_static w !! n) ∧
    w_log w1 = w_log w ∧ w_events w1 = w_events w ∧ w_now w1 = w_now w ∧
    InstallRoute d net2 msk2 s2 w1 = Some (s2, w12) ∧
    InstallRoute d net1 msk1 s1 w2 = Some (s1, w12) ∧
    w_static w12 !! ip1 = Some (AddNetworkRouteTo d net1 msk1 (m_nextHop s1) 1 0 t1) ∧
    w_static w12 !! ip2 = Some (AddNetworkRouteTo d net2 msk2 (m_nextHop s2) 1 0 t2).
Proof.
  intros H1 H2 Hne Ht1 Ht2.
  eexists _, _, _.
  split; [by apply (InstallRoute_Some d net1 msk1 s1 w ip1 t1)|].
  split; [by apply (InstallRoute_Some d net2 msk2 s2 w ip2 t2)|].
  split; [intros n Hn; simpl; by rewrite lookup_insert_ne|].
  do 3 (split; [done|]).
  split.
  { apply (InstallRoute_Some d net2 msk2 s2 _ ip2 t2); [done|].
    simpl. by rewrite lookup_insert_ne. }
  split.
  { rewrite (InstallRoute_Some d net1 msk1 s1 _ ip1 t1); [|done|].
    - do 2 f_equal. unfold set_static. simpl. f_equal.
      by apply insert_insert_ne.
    - simpl. by rewrite lookup_insert_ne. }
  simpl. rewrite lookup_insert_ne, !lookup_insert_eq by done. done.
Qed.

Lemma InstallRoute_frame_commute_witness :
  ∃ w12,
    (InstallRoute true (ipv4 10 1 0 0) (ipv4 255 255 0 0) speakerB
       (mkWorld (internet_Install noConnected) [] [] 0)
     ≫= λ sw, InstallRoute true (ipv4 10 2 0 0) (ipv4 255 255 0 0) speakerA sw.2)
    = Some (speakerA, w12) ∧
    (InstallRoute true (ipv4 10 2 0 0) (ipv4 255 255 0 0) speakerA
       (mkWorld (internet_Install noConnected) [] [] 0)
     ≫= λ sw, InstallRoute true (ipv4 10 1 0 0) (ipv4 255 255 0 0) speakerB sw.2)
    = Some (speakerB, w12).
Proof.
  destruct (InstallRoute_frame_commute true speakerB speakerA 3 0 [] []
              (ipv4 10 1 0 0) (ipv4 10 2 0 0) (ipv4 255 255 0 0) (ipv4 255 255 0 0)
              (mkWorld (internet_Install noConnected) [] [] 0))
    as (w1 & w2 & w12 & Ha & Hb & _ & _ & _ & _ & Hab & Hba & _);
    [reflexivity | reflexivity | discriminate | reflexivity | reflexivity |].
  exists w12. rewrite Ha, Hb. simpl. split; [exact Hab | exact Hba].
Defined.

Lemma call_not_Initialize_ipv4 d c s w s' w' :
  isInitialize c = false → call d c s w = Some (s', w') → m_ipv4 s' = m_ipv4 s.
Proof.
  intros Hc H. destruct c as [n nh|a|r|net msk]; cbn [call] in H; [done|..].
  - by injection H as <- _.
  - by injection H as <- _.
  - apply InstallRoute_inv in H as (ip & t & _ & _ & -> & _). done.
Qed.

(** X8: [InstallRoute] needs [Initialize]. On a speaker as the constructor
    leaves it, any run of member calls that holds an [InstallRoute] and no
    [Initialize] has no result, however many [AddNeighbor] and [Advertise]
    calls surround it: [m_ipv4] is still null when it is used. *)
Theorem InstallRoute_needs_Initialize (d : bool) (cs : list Call) (asn : N) (w : World) :
  forallb (λ c, negb (isInitialize c)) cs = true →
  existsb isInstallRoute cs = true →
  runCalls d cs (BgpSpeaker_new asn) w = None.
Proof.
  assert (H : ∀ s w0, m_ipv4 s = None →
            forallb (λ c, negb (isInitialize c)) cs = true →
            existsb isInstallRoute cs = true → runCalls d cs s w0 = None).
  { induction cs as [|c cs IH]; intros s w0 Hnull Hall Hex; [done|].
    simpl in Hall, Hex. apply andb_true_iff in Hall as [Hc Hall].
    apply negb_true_iff in Hc. simpl.
    destruct (call d c s w0) as [[s' w']|] eqn:Hcall; simpl; [|done].
    pose proof (call_not_Initialize_ipv4 _ _ _ _ _ _ Hc Hcall) as Hip.
    destruct c as [n nh|a|r|net msk]; simpl in Hex.
    - done.
    - apply IH; [congruence | done | done].
    - apply IH; [congruence | done | done].
    - cbn [call] in Hcall. unfold InstallRoute in Hcall.
      rewrite Hnull in Hcall. done. }
  intros Hall Hex. by apply H.
Qed.

Lemma InstallRoute_needs_Initialize_witness :
  runCalls true [CAddNeighbor 65001; CAdvertise routeB;
                 CInstallRoute (ipv4 10 1 0 0) (ipv4 255 255 0 0)]
    (BgpSpeaker_new 65002) (mkWorld (internet_Install noConnected) [] [] 0) = None.
Proof.
  apply InstallRoute_needs_Initialize; reflexivity.
Defined.

(** X9: an initialised speaker cannot fail. Once [m_ipv4] points at a node
    that has a static routing table, every run of [AddNeighbor],
    [Advertise] and [InstallRoute] calls has a result; through it the AS
    number, node, [Ipv4] pointer and next hop stay what they were, the
    neighbor list only grows, by the registered neighbors in call order,
    and the node's table keeps every entry it had. *)
Theorem initialised_speaker_never_fails (d : bool) (cs : list Call) (s : BgpSpeaker)
    (n : nat) (t : list (Ipv4RoutingTableEntry * N)) (w : World) :
  m_ipv4 s = Some n → w_static w !! n = Some t →
  forallb (λ c, negb (isInitialize c)) cs = true →
  ∃ s' w',
    runCalls d cs s w = Some (s', w') ∧
    m_as s' = m_as s ∧ m_node s' = m_node s ∧ m_ipv4 s' = Some n ∧
    m_nextHop s' = m_nextHop s ∧
    m_neighbors s' = m_neighbors s ++ addedNeighbors cs ∧
    ∃ t', w_static w' !! n = Some t' ∧ ∀ x, x ∈ t → x ∈ t'.
Proof.
  revert s t w. induction cs as [|c cs IH]; intros s t w Hip Ht Hall.
  - exists s, w. simpl. rewrite app_nil_r. eauto 10.
  - simpl in Hall. apply andb_true_iff in Hall as [Hc Hall].
    destruct c as [n0 nh|a|r|net msk]; [done|..]; cbn [runCalls call].
    + destruct (IH (AddNeighbor a s) t w) as (s' & w' & Hrun & H1 & H2 & H3 & H4 & H5 & H6);
        [done..|].
      exists s', w'. simpl. rewrite Hrun. simpl in H5.
      rewrite <- app_assoc in H5. done.
    + destruct (IH s t (Advertise r s w).2) as (s' & w' & Hrun & H);
        [done | by rewrite Advertise_world | done |].
      exists s', w'. simpl. split; [exact Hrun | exact H].
    + rewrite (InstallRoute_Some d net msk s w n t) by done. simpl.
      destruct (IH s (AddNetworkRouteTo d net msk (m_nextHop s) 1 0 t)
                  (set_static n (AddNetworkRouteTo d net msk (m_nextHop s) 1 0 t) w))
        as (s' & w' & Hrun & H1 & H2 & H3 & H4 & H5 & t' & Ht' & Hsub);
        [done | simpl; apply lookup_insert_eq | done |].
      exists s', w'. do 6 (split; [done|]). exists t'. split; [done|].
      intros x Hx. apply Hsub, elem_of_AddNetworkRouteTo. by left.
Qed.

Lemma initialised_speaker_never_fails_witness :
  ∃ s' w',
    runCalls true [CAddNeighbor 65003; CInstallRoute (ipv4 10 1 0 0) (ipv4 255 255 0 0);
                   CAdvertise routeB; CAddNeighbor 65003]
      speakerB (mkWorld (internet_Install noConnected) [] [] 0) = Some (s', w') ∧
    m_neighbors s' = [65001; 65003; 65003].
Proof.
  destruct (initialised_speaker_never_fails true
              [CAddNeighbor 65003; CInstallRoute (ipv4 10 1 0 0) (ipv4 255 255 0 0);
               CAdvertise routeB; CAddNeighbor 65003]
              speakerB 3 [] (mkWorld (internet_Install noConnected) [] [] 0))
    as (s' & w' & Hrun & _ & _ & _ & _ & Hn & _); [reflexivity..|].
  exists s', w'. split; [exact Hrun | exact Hn].
Defined.

(** ** What every run of the scheduled lambdas keeps *)

Lemma keepsRoutes_refl w : keepsRoutes w w.
Proof. intros n t x Ht Hx. eauto. Qed.

Lemma keepsRoutes_trans w1 w2 w3 :
  keepsRoutes w1 w2 → keepsRoutes w2 w3 → keepsRoutes w1 w3.
Proof.
  intros H12 H23 n t x Ht Hx.
  destruct (H12 n t x Ht Hx) as (t' & Ht' & Hx'). eauto.
Qed.

Lemma keepsRoutes_static w w' : w_static w' = w_static w → keepsRoutes w w'.
Proof. intros Heq n t x Ht Hx. rewrite Heq. eauto. Qed.

Lemma InstallRoute_keeps d net msk s w s' w' :
  InstallRoute d net msk s w = Some (s', w') →
  s' = s ∧ keepsRoutes w w' ∧ w_log w' = w_log w ∧
  w_events w' = w_events w ∧ w_now w' = w_now w.
Proof.
  intros (ip & t & Hip & Ht & -> & ->)%InstallRoute_inv.
  split; [done|]. split; [|done].
  intros n t0 x Ht0 Hx. simpl.
  destruct (decide (ip = n)) as [->|Hne].
  - rewrite lookup_insert_eq. eexists. split; [done|].
    apply elem_of_AddNetworkRouteTo. left. congruence.
  - rewrite lookup_insert_ne by done. eauto.
Qed.

Ltac split_Advertise H :=
  match type of H with
  | context [Advertise ?r ?s ?w] =>
      let HO := fresh "HO" in
      let HW := fresh "HW" in
      pose proof (Advertise_objects r s w) as HO;
      pose proof (Advertise_world r s w) as HW;
      destruct (Advertise r s w) as [[? ?] ?];
      cbn [fst snd] in HO, HW; injection HO as -> ->; subst
  end.

Lemma exec_keeps d a sim sim' :
  exec d a sim = Some sim' →
  as65001 sim' = as65001 sim ∧ as65002 sim' = as65002 sim ∧
  keepsRoutes (world sim) (world sim') ∧
  (∃ l, w_log (world sim') = w_log (world sim) ++ l) ∧
  w_now (world sim') = w_now (world sim).
Proof.
  intros H. destruct a; cbn [exec] in H.
  - split_Advertise H. cbn [prefix mask] in H.
    destruct (InstallRoute d _ _ (as65002 sim) _) as [[a2 w]|] eqn:Hi;
      simpl in H; [|done].
    injection H as <-. simpl.
    apply InstallRoute_keeps in Hi as (-> & Hk & Hl & _ & Hn).
    simpl in Hl, Hn.
    split; [done|]. split; [done|]. split; [|split; [by eexists | done]].
    eapply keepsRoutes_trans; [|exact Hk]. by apply keepsRoutes_static.
  - split_Advertise H. cbn [prefix mask] in H.
    destruct (InstallRoute d _ _ (as65001 sim) _) as [[a1 w]|] eqn:Hi;
      simpl in H; [|done].
    injection H as <-. simpl.
    apply InstallRoute_keeps in Hi as (-> & Hk & Hl & _ & Hn).
    simpl in Hl, Hn.
    split; [done|]. split; [done|]. split; [|split; [by eexists | done]].
    eapply keepsRoutes_trans; [|exact Hk]. by apply keepsRoutes_static.
  - destruct (InstallRoute d _ _ (as65002 sim) _) as [[a2 w]|] eqn:Hi;
      simpl in H; [|done].
    injection H as <-. simpl.
    apply InstallRoute_keeps in Hi as (-> & Hk & Hl & _ & Hn).
    simpl in Hl, Hn.
    split; [done|]. split; [done|]. split; [|split; [by eexists | done]].
    eapply keepsRoutes_trans; [|exact Hk]. by apply keepsRoutes_static.
  - injection H as <-. simpl.
    split; [done|]. split; [done|].
    split; [by apply keepsRoutes_static | split; [by eexists | done]].
  - injection H as <-.
    split; [done|]. split; [done|].
    split; [apply keepsRoutes_refl | split; [|done]].
    exists []. by rewrite app_nil_r.
Qed.

(** X10: whatever is pending and however long the simulator runs, a run
    of the scheduled lambdas that ends leaves both speakers exactly as
    they were, never removes an entry from any static routing table, only
    adds lines at the end of the log, and ends with the clock at the stop
    time. *)
Theorem Run_keeps_speakers_and_routes (d : bool) (fuel : nat) (stop : N) (sim sim' : Sim) :
  Run d fuel stop sim = Some sim' →
  as65001 sim' = as65001 sim ∧ as65002 sim' = as65002 sim ∧
  keepsRoutes (world sim) (world sim') ∧
  (∃ l, w_log (world sim') = w_log (world sim) ++ l) ∧
  w_now (world sim') = stop.
Proof.
  revert sim. induction fuel as [|f IH]; intros sim H; [done|].
  simpl in H.
  assert (Hstop : Some (mkSim (as65001 sim) (as65002 sim) (set_now stop (world sim)))
                  = Some sim' →
                  as65001 sim' = as65001 sim ∧ as65002 sim' = as65002 sim ∧
                  keepsRoutes (world sim) (world sim') ∧
                  (∃ l, w_log (world sim') = w_log (world sim) ++ l) ∧
                  w_now (world sim') = stop).
  { intros [= <-]. simpl. split; [done|]. split; [done|].
    split; [by apply keepsRoutes_static|]. split; [|done].
    exists []. by rewrite app_nil_r. }
  destruct (w_events (world sim)) as [|[t a] q]; [by apply Hstop|].
  destruct (stop <? t); [by apply Hstop|].
  destruct (exec d a _) as [sim1|] eqn:Hexec; simpl in H; [|done].
  apply exec_keeps in Hexec as (Ha & Hb & Hk & [l Hl] & _). simpl in *.
  destruct (IH sim1 H) as (Ha' & Hb' & Hk' & [l' Hl'] & Hn').
  split; [congruence|]. split; [congruence|].
  split; [by eapply keepsRoutes_trans|]. split; [|done].
  exists (l ++ l'). by rewrite Hl', Hl, app_assoc.
Qed.

Lemma Run_keeps_speakers_and_routes_witness :
  ∃ sim',
    Run true 8 25
      (mkSim speakerA speakerB
         (mkWorld (internet_Install noConnected) []
            [(2, Lambda_t2); (3, Lambda_t3); (10, Lambda_leak); (12, Lambda_dump)] 0))
    = Some sim' ∧
    as65001 sim' = speakerA ∧ as65002 sim' = speakerB ∧ w_now (world sim') = 25.
Proof.
  destruct (Run true 8 25
              (mkSim speakerA speakerB
                 (mkWorld (internet_Install noConnected) []
                    [(2, Lambda_t2); (3, Lambda_t3); (10, Lambda_leak); (12, Lambda_dump)] 0)))
    as [sim'|] eqn:Hrun; [|vm_compute in Hrun; discriminate].
  exists sim'. split; [reflexivity|].
  destruct (Run_keeps_speakers_and_routes _ _ _ _ _ Hrun) as (Ha & Hb & _ & _ & Hn).
  split; [exact Ha|]. split; [exact Hb | exact Hn].
Defined.

Lemma main_fuel d c f sim :
  main d 8 c = Some sim → (8 ≤ f)%nat → main d f c = Some sim.
Proof.
  unfold main, stateAt. rewrite setup_eq. cbn [mbind option_bind].
  apply Run_fuel_mono.
Qed.

Lemma stateAt_12_events d c :
  w_events ∘ world <$> stateAt d 8 c 12 = Some [(24, PrintRoutingTableAll)].
Proof.
  unfold stateAt. rewrite setup_eq. simpl.
  install_at 3%nat (c 3%nat).
  install_at 0%nat (c 0%nat).
  install_at 3%nat (AddNetworkRouteTo d (ipv4 10 1 0 0) (ipv4 255 255 0 0)
                      (ipv4 10 2 1 2) 1 0 (c 3%nat)).
  reflexivity.
Qed.

(** X11: [main] runs to its end. With any fuel from 8 on, for either
    behaviour of [AddNetworkRouteTo] and whatever the tables held before,
    no call of the run fails; at 25 s no event is pending, the log is the
    two advertisements with their "sent to" lines, the leak line and the
    dump line, in this order, and the printing that the dump lambda
    scheduled at 12 s for 24 s has fired. *)
Theorem main_completes (d : bool) (c : nat → list (Ipv4RoutingTableEntry * N)) (k : nat) :
  (∃ sim,
     main d (8 + k) c = Some sim ∧
     as65001 sim = speakerA ∧ as65002 sim = speakerB ∧
     w_log (world sim) =
       [ "[BGP] AS65001 advertises 10.1.0.0/16"%string; "  -> sent to AS65002"%string;
         "[BGP] AS65002 advertises 10.2.0.0/16"%string; "  -> sent to AS65001"%string;
         (newline +:+ "[SECURITY] ROUTE LEAK OCCURRED")%string;
         (newline +:+ "=== ROUTING TABLES ===")%string ] ∧
     w_events (world sim) = [] ∧ w_now (world sim) = 25) ∧
  w_events ∘ world <$> stateAt d 8 c 12 = Some [(24, PrintRoutingTableAll)].
Proof.
  split; [|apply stateAt_12_events].
  eexists. split; [apply main_fuel; [apply main_eq | lia]|].
  done.
Qed.
